(** * Knowledge-base tool host and chat orchestrator

    A shallow embedding of [apps/server.py] (the [get_knowledge_base] tool)
    and of [apps/client.py] ([MCPOpenAIClient.process_query] and
    [MCPOpenAIClient.chat_loop]), with the properties of both that the
    specification states.

    Python text is modelled by [string]: a sequence of bytes read as UTF-8.
    Concatenation and comparison are exact on every text, and so is
    [str.strip], which knows the white space of Unicode by its bytes;
    [str.lower] is the one of ASCII (see [Py.lower]), and [repr] follows the
    characters listed at [Py.nonprintable]. *)

From Stdlib Require Import String Ascii List ZArith NArith Bool Lia.
From Stdlib Require Import DecimalString.
Import ListNotations.

Local Open Scope list_scope.
Local Open Scope string_scope.

(** ** Python values, exceptions and the built-ins the two programs call *)

Module Py.

(** The one-character strings Python writes with an escape. *)
Definition LF : string := String (ascii_of_nat 10) EmptyString.
Definition quote : ascii := ascii_of_nat 34.
Definition apostrophe : ascii := ascii_of_nat 39.
Definition backslash : ascii := ascii_of_nat 92.
Definition slash : ascii := ascii_of_nat 47.

(** *** Exceptions *)

(** The exception classes the two programs can meet.  All but the last two
    derive from [Exception]; [KeyboardInterrupt] and [CancelledError]
    derive from [BaseException] only.  The argument is [str(e)]. *)
Inductive exn : Type :=
| FileNotFoundError (msg : string)
| IsADirectoryError (msg : string)
| JSONDecodeError (msg : string)
| IndexError (msg : string)
| AttributeError (msg : string)
| TypeError (msg : string)
| EOFError (msg : string)
| OtherException (cls msg : string)
| KeyboardInterrupt
| CancelledError.

(** [isinstance(e, Exception)] *)
Definition isinstance_Exception (e : exn) : bool :=
  match e with
  | KeyboardInterrupt | CancelledError => false
  | _ => true
  end.

(** [str(e)] *)
Definition exn_str (e : exn) : string :=
  match e with
  | FileNotFoundError msg | IsADirectoryError msg | JSONDecodeError msg
  | IndexError msg | AttributeError msg | TypeError msg | EOFError msg
  | OtherException _ msg => msg
  | KeyboardInterrupt | CancelledError => EmptyString
  end.

(** A call either returns a value or raises. *)
Inductive outcome (A : Type) : Type :=
| Returned (a : A)
| Raised (e : exn).
Arguments Returned {A} a.
Arguments Raised {A} e.

Definition bind {A B : Type} (c : outcome A) (k : A -> outcome B) : outcome B :=
  match c with
  | Returned a => k a
  | Raised e => Raised e
  end.

(** [try: body  except ...: handler], the handler deciding from the
    exception whether it catches (a result) or lets it through. *)
Definition try_except {A : Type} (body : outcome A) (handler : exn -> outcome A)
  : outcome A :=
  match body with
  | Returned a => Returned a
  | Raised e => handler e
  end.

(** *** Values *)

(** A float is known by its [repr]; the three non-finite ones are kept
    apart because [str] and [json.dumps] spell them differently. *)
Inductive pyfloat : Type :=
| FloatNaN
| FloatInf
| FloatNegInf
| FloatFinite (repr : string).

(** The values [json.load] produces.  A dict keeps insertion order, which
    [json.dumps] and [str] follow, so it is a list of key/value pairs (with
    distinct keys when it comes from [json.load]). *)
#[local] Unset Elimination Schemes.
Inductive pyval : Type :=
| PyNone
| PyBool (b : bool)
| PyInt (n : Z)
| PyFloat (f : pyfloat)
| PyStr (s : string)
| PyList (items : list pyval)
| PyDict (fields : list (string * pyval)).
#[local] Set Elimination Schemes.

(** [isinstance(v, list)] and [isinstance(v, dict)] *)
Definition isinstance_list (v : pyval) : bool :=
  match v with PyList _ => true | _ => false end.
Definition isinstance_dict (v : pyval) : bool :=
  match v with PyDict _ => true | _ => false end.

(** [d.get(key, default)] *)
Fixpoint dict_get (fields : list (string * pyval)) (key : string) (default : pyval)
  : pyval :=
  match fields with
  | [] => default
  | (k, v) :: rest => if String.eqb k key then v else dict_get rest key default
  end.

(** [enumerate(l, start)] *)
Fixpoint enumerate {A : Type} (l : list A) (start : Z) : list (Z * A) :=
  match l with
  | [] => []
  | x :: rest => (start, x) :: enumerate rest (start + 1)
  end.

(** *** Text *)

(** [sep.join(parts)] *)
Definition join (sep : string) (parts : list string) : string :=
  String.concat sep parts.

(** [str(n)] for an int. *)
Definition int_str (n : Z) : string :=
  NilZero.string_of_int (Z.to_int n).

Definition hex_digit (n : N) : ascii :=
  if (n <? 10)%N then ascii_of_N (48 + n) else ascii_of_N (87 + n).

(** [format(n, "02x")] for n < 256 and [format(n, "04x")] for n < 65536 *)
Definition hex2 (n : N) : string :=
  String (hex_digit (N.shiftr n 4 mod 16)) (String (hex_digit (n mod 16)) EmptyString).
Definition hex4 (n : N) : string :=
  hex2 (N.shiftr n 8 mod 256) ++ hex2 (n mod 256).

(** White space as [str.strip] and [str.isspace] know it, by its UTF-8
    bytes: U+0009 to U+000D and U+001C to U+0020 (one byte), U+0085 and
    U+00A0 (two bytes), U+1680, U+2000 to U+200A, U+2028, U+2029, U+202F,
    U+205F and U+3000 (three bytes). *)
Definition space_byte (a : N) : bool :=
  ((9 <=? a) && (a <=? 13) || (28 <=? a) && (a <=? 32))%N.

Definition space_pair (a b : N) : bool :=
  ((a =? 194) && ((b =? 133) || (b =? 160)))%N.

Definition space_triple (a b c : N) : bool :=
  ((a =? 225) && (b =? 154) && (c =? 128)
   || (a =? 226) && (b =? 128)
      && ((128 <=? c) && (c <=? 138) || (c =? 168) || (c =? 169) || (c =? 175))
   || (a =? 226) && (b =? 129) && (c =? 159)
   || (a =? 227) && (b =? 128) && (c =? 128))%N.

(** The bytes a white space can start with; none of them is a continuation
    byte. *)
Definition space_start (a : N) : bool :=
  (space_byte a || (a =? 194) || (a =? 225) || (a =? 226) || (a =? 227))%N.

(** [s.lstrip()] *)
Fixpoint lstrip (s : string) : string :=
  match s with
  | String a rest =>
      if space_byte (N_of_ascii a) then lstrip rest
      else
        match rest with
        | String b rest2 =>
            if space_pair (N_of_ascii a) (N_of_ascii b) then lstrip rest2
            else
              match rest2 with
              | String c rest3 =>
                  if space_triple (N_of_ascii a) (N_of_ascii b) (N_of_ascii c)
                  then lstrip rest3 else s
              | EmptyString => s
              end
        | EmptyString => s
        end
  | EmptyString => EmptyString
  end.

(** The text is made of white space only (the empty text included). *)
Fixpoint blank (s : string) : bool :=
  match s with
  | String a rest =>
      if space_byte (N_of_ascii a) then blank rest
      else
        match rest with
        | String b rest2 =>
            if space_pair (N_of_ascii a) (N_of_ascii b) then blank rest2
            else
              match rest2 with
              | String c rest3 =>
                  space_triple (N_of_ascii a) (N_of_ascii b) (N_of_ascii c)
                  && blank rest3
              | EmptyString => false
              end
        | EmptyString => false
        end
  | EmptyString => true
  end.

(** [s.rstrip()]: the text is cut where only white space follows.  In
    UTF-8 text that place is never inside a character, since no white space
    starts with a continuation byte. *)
Fixpoint rstrip (s : string) : string :=
  match s with
  | String a rest => if blank s then EmptyString else String a (rstrip rest)
  | EmptyString => EmptyString
  end.

(** [s.strip()] *)
Definition strip (s : string) : string := rstrip (lstrip s).

Definition lower_char (c : ascii) : ascii :=
  let n := N_of_ascii c in
  if ((65 <=? n) && (n <=? 90))%N then ascii_of_N (n + 32) else c.

(** [s.lower()], on the letters of ASCII.  Text with other letters is left
    as it is, which is not what Python does with it; the programs only
    compare the result with "quit", and no character outside ASCII is
    lowered to q, u, i or t, so that comparison comes out as in Python. *)
Fixpoint lower (s : string) : string :=
  match s with
  | String c rest => String (lower_char c) (lower rest)
  | EmptyString => EmptyString
  end.

Fixpoint contains_char (c : ascii) (s : string) : bool :=
  match s with
  | String d rest => Ascii.eqb c d || contains_char c rest
  | EmptyString => false
  end.

(** [repr] of one ASCII character between quotes [q]. *)
Definition repr_char (q : ascii) (c : ascii) : string :=
  let n := N_of_ascii c in
  if Ascii.eqb c q then String backslash (String c EmptyString)
  else if Ascii.eqb c backslash then String backslash (String backslash EmptyString)
  else if (n =? 9)%N then String backslash "t"
  else if (n =? 10)%N then String backslash "n"
  else if (n =? 13)%N then String backslash "r"
  else if ((n <? 32) || (n =? 127))%N then String backslash ("x" ++ hex2 n)
  else String c EmptyString.

(** Characters beyond ASCII that [repr] escapes: those of the categories
    Cc, Cf, Cs, Co, Zl, Zp and Zs of Unicode 14, that is, controls, format
    characters, surrogates, private use, separators and spaces.  Code points
    that are not assigned are escaped by Python too; which ones they are
    changes with the version of Unicode and is not followed: apart from
    U+2065 they are taken as printable. *)
Definition nonprintable (p : N) : bool :=
  ((p <=? 160) || (p =? 173)
   || (1536 <=? p) && (p <=? 1541) || (p =? 1564) || (p =? 1757) || (p =? 1807)
   || (2192 <=? p) && (p <=? 2193) || (p =? 2274)
   || (p =? 5760) || (p =? 6158)
   || (8192 <=? p) && (p <=? 8207)
   || (8232 <=? p) && (p <=? 8239)
   || (8287 <=? p) && (p <=? 8303)
   || (p =? 12288)
   || (55296 <=? p) && (p <=? 63743)
   || (p =? 65279)
   || (65529 <=? p) && (p <=? 65531)
   || (p =? 69821) || (p =? 69837)
   || (78896 <=? p) && (p <=? 78904)
   || (113824 <=? p) && (p <=? 113827)
   || (119155 <=? p) && (p <=? 119162)
   || (p =? 917505)
   || (917536 <=? p) && (p <=? 917631)
   || (983040 <=? p) && (p <=? 1048573)
   || (1048576 <=? p) && (p <=? 1114109))%N.

(** The escape of [repr] for a code point: [\xhh], [\uhhhh] or
    [\Uhhhhhhhh]. *)
Definition repr_escape (p : N) : string :=
  if (p <? 256)%N then String backslash ("x" ++ hex2 p)
  else if (p <? 65536)%N then String backslash ("u" ++ hex4 p)
  else String backslash ("U" ++ hex4 (N.shiftr p 16) ++ hex4 (p mod 65536)).

(** The scan of [repr] over UTF-8 text: [need] bytes are still missing from
    the character whose bytes so far are [bytes] and whose high bits are
    [point]. *)
Fixpoint repr_scan (q : ascii) (bytes : string) (point : N) (need : nat) (s : string)
  : string :=
  match s with
  | EmptyString => bytes
  | String c rest =>
      let n := N_of_ascii c in
      match need with
      | S k =>
          let point' := (point * 64 + n mod 64)%N in
          let bytes' := bytes ++ String c EmptyString in
          match k with
          | O =>
              (if nonprintable point' then repr_escape point' else bytes')
              ++ repr_scan q EmptyString 0 0 rest
          | S _ => repr_scan q bytes' point' k rest
          end
      | O =>
          if (n <? 128)%N then repr_char q c ++ repr_scan q EmptyString 0 0 rest
          else if (n <? 224)%N then repr_scan q (String c EmptyString) (n mod 32) 1 rest
          else if (n <? 240)%N then repr_scan q (String c EmptyString) (n mod 16) 2 rest
          else repr_scan q (String c EmptyString) (n mod 8) 3 rest
      end
  end.

(** [repr(s)] for a str: single quotes, unless the text has a single quote
    and no double quote. *)
Definition str_repr (s : string) : string :=
  let q := if contains_char apostrophe s && negb (contains_char quote s)
           then quote else apostrophe in
  String q (repr_scan q EmptyString 0 0 s ++ String q EmptyString).

(** [repr(f)] and [str(f)] for a float. *)
Definition float_repr (f : pyfloat) : string :=
  match f with
  | FloatNaN => "nan"
  | FloatInf => "inf"
  | FloatNegInf => "-inf"
  | FloatFinite r => r
  end.

(** [repr(v)] *)
Fixpoint repr (v : pyval) : string :=
  match v with
  | PyNone => "None"
  | PyBool true => "True"
  | PyBool false => "False"
  | PyInt n => int_str n
  | PyFloat f => float_repr f
  | PyStr s => str_repr s
  | PyList items => "[" ++ join ", " (map repr items) ++ "]"
  | PyDict fields =>
      "{" ++ join ", " (map (fun kv => let '(k, x) := kv in
                                       str_repr k ++ ": " ++ repr x) fields)
          ++ "}"
  end.

(** [str(v)], which is also what an f-string field [{v}] inserts. *)
Definition str (v : pyval) : string :=
  match v with
  | PyStr s => s
  | _ => repr v
  end.

(** *** The [json] module *)

(** One code point in the [\uXXXX] form of [json.dumps], a surrogate pair
    above the basic plane. *)
Definition escape_code_point (n : N) : string :=
  if (n <? 65536)%N then String backslash ("u" ++ hex4 n)
  else
    let m := (n - 65536)%N in
    String backslash ("u" ++ hex4 (N.lor 55296 (N.shiftr m 10 mod 1024)))
    ++ String backslash ("u" ++ hex4 (N.lor 56320 (m mod 1024))).

Definition escape_ascii (c : ascii) : string :=
  let n := N_of_ascii c in
  if (n =? 34)%N then String backslash (String quote EmptyString)
  else if (n =? 92)%N then String backslash (String backslash EmptyString)
  else if (n =? 8)%N then String backslash "b"
  else if (n =? 12)%N then String backslash "f"
  else if (n =? 10)%N then String backslash "n"
  else if (n =? 13)%N then String backslash "r"
  else if (n =? 9)%N then String backslash "t"
  else if ((n <? 32) || (n =? 127))%N then escape_code_point n
  else String c EmptyString.

(** The scan of [py_encode_basestring_ascii] over UTF-8 text: [need] bytes
    are still missing from the code point whose high bits are [pending]. *)
Fixpoint escape_scan (pending : N) (need : nat) (s : string) : string :=
  match s with
  | EmptyString => EmptyString
  | String c rest =>
      let n := N_of_ascii c in
      match need with
      | S k =>
          let acc := (pending * 64 + n mod 64)%N in
          match k with
          | O => escape_code_point acc ++ escape_scan 0 0 rest
          | S _ => escape_scan acc k rest
          end
      | O =>
          if (n <? 128)%N then escape_ascii c ++ escape_scan 0 0 rest
          else if (n <? 224)%N then escape_scan (n mod 32) 1 rest
          else if (n <? 240)%N then escape_scan (n mod 16) 2 rest
          else escape_scan (n mod 8) 3 rest
      end
  end.

(** [json.dumps(s)] for a str (with the default [ensure_ascii=True]). *)
Definition json_str (s : string) : string :=
  String quote (escape_scan 0 0 s ++ String quote EmptyString).

Definition json_float (f : pyfloat) : string :=
  match f with
  | FloatNaN => "NaN"
  | FloatInf => "Infinity"
  | FloatNegInf => "-Infinity"
  | FloatFinite r => r
  end.

Fixpoint spaces (n : nat) : string :=
  match n with
  | O => EmptyString
  | S k => String " " (spaces k)
  end.

Definition newline_indent (indent level : nat) : string :=
  LF ++ spaces (indent * level).

(** The encoder of [json.dumps(v, indent=indent)] at nesting depth [level]:
    one item per line, items separated by a comma, keys by [": "]. *)
Fixpoint json_encode (indent level : nat) (v : pyval) : string :=
  match v with
  | PyNone => "null"
  | PyBool true => "true"
  | PyBool false => "false"
  | PyInt n => int_str n
  | PyFloat f => json_float f
  | PyStr s => json_str s
  | PyList [] => "[]"
  | PyList items =>
      "[" ++ newline_indent indent (S level)
          ++ join ("," ++ newline_indent indent (S level))
                  (map (json_encode indent (S level)) items)
          ++ newline_indent indent level ++ "]"
  | PyDict [] => "{}"
  | PyDict fields =>
      "{" ++ newline_indent indent (S level)
          ++ join ("," ++ newline_indent indent (S level))
                  (map (fun kv => let '(k, x) := kv in
                                  json_str k ++ ": " ++ json_encode indent (S level) x)
                       fields)
          ++ newline_indent indent level ++ "}"
  end.

(** [json.dumps(v, indent=indent)] *)
Definition json_dumps (v : pyval) (indent : nat) : string :=
  json_encode indent 0 v.

(** *** [os.path] (POSIX) *)

Definition startswith_slash (s : string) : bool :=
  match s with
  | String c _ => Ascii.eqb c slash
  | EmptyString => false
  end.

Fixpoint endswith_slash (s : string) : bool :=
  match s with
  | EmptyString => false
  | String c EmptyString => Ascii.eqb c slash
  | String _ rest => endswith_slash rest
  end.

Definition join_component (path b : string) : string :=
  if startswith_slash b then b
  else if String.eqb path EmptyString || endswith_slash path then path ++ b
  else path ++ "/" ++ b.

(** [os.path.join(a, *p)] *)
Definition os_path_join (a : string) (p : list string) : string :=
  fold_left join_component p a.

(** [p[:p.rfind("/") + 1]] *)
Fixpoint upto_last_slash (p : string) : string :=
  match p with
  | EmptyString => EmptyString
  | String c rest =>
      if contains_char slash p then String c (upto_last_slash rest) else EmptyString
  end.

Fixpoint all_slashes (s : string) : bool :=
  match s with
  | EmptyString => true
  | String c rest => Ascii.eqb c slash && all_slashes rest
  end.

Fixpoint rstrip_slash (s : string) : string :=
  match s with
  | String c rest =>
      match rstrip_slash rest with
      | EmptyString => if Ascii.eqb c slash then EmptyString else String c EmptyString
      | kept => String c kept
      end
  | EmptyString => EmptyString
  end.

(** [os.path.dirname(p)] *)
Definition os_path_dirname (p : string) : string :=
  let head := upto_last_slash p in
  if negb (String.eqb head EmptyString) && negb (all_slashes head)
  then rstrip_slash head else head.

Declare Scope py_scope.
Delimit Scope py_scope with py.
Notation "x <- c ;; k" := (bind c (fun x => k))
  (at level 61, c at next level, right associativity) : py_scope.

End Py.

(** ** The tool host: [apps/server.py] *)

Module Server.
Import Py.
Local Open Scope py_scope.

(** What the host's file system holds at a path. *)
Inductive fs_node : Type :=
| RegularFile (content : string)
| Directory.

Definition filesystem : Type := string -> option fs_node.

(** [open(path, "r")] followed by reading the whole file. *)
Definition open_read (fs : filesystem) (path : string) : outcome string :=
  match fs path with
  | None =>
      Raised (FileNotFoundError
                ("[Errno 2] No such file or directory: " ++ str_repr path))
  | Some Directory =>
      Raised (IsADirectoryError ("[Errno 21] Is a directory: " ++ str_repr path))
  | Some (RegularFile content) => Returned content
  end.

Section get_knowledge_base.
(** [json.loads], the decoder behind [json.load]; it raises
    [JSONDecodeError] on text that is not JSON. *)
Variable json_loads : string -> outcome pyval.
Variable fs : filesystem.
(** The path of [server.py] itself. *)
Variable __file__ : string.

Definition kb_file : string :=
  os_path_join (os_path_dirname __file__) ["data"; "knowledge_base.json"].

(** One turn of the loop over [enumerate(knowledge_base, 1)]: the text
    so far, extended by the lines of item [i]. *)
Definition loop_body (kb_text : string) (entry : Z * pyval) : string :=
  let '(i, item) := entry in
  let '(question, answer) :=
    match item with
    | PyDict fields =>
        (dict_get fields "question" (PyStr "No question provided"),
         dict_get fields "answer" (PyStr "No answer"))
    | _ => (PyStr ("Item " ++ int_str i), PyStr (int_str i))
    end in
  kb_text ++ ("Q" ++ int_str i ++ ": " ++ str question ++ LF
              ++ "A" ++ int_str i ++ ": " ++ str answer ++ LF ++ LF).

Definition get_knowledge_base : outcome string :=
  try_except
    (content <- open_read fs kb_file ;;
     knowledge_base <- json_loads content ;;
     let kb_text := "Here is the retrieved knowledge base:" ++ LF ++ LF in
     let kb_text :=
       match knowledge_base with
       | PyList items => fold_left loop_body (enumerate items 1) kb_text
       | _ =>
           kb_text ++ ("Knowledge base content: "
                       ++ json_dumps knowledge_base 2 ++ LF ++ LF)
       end in
     Returned kb_text)
    (fun e =>
       match e with
       | FileNotFoundError _ => Returned "Error: Knowledge base file not found."
       | JSONDecodeError _ =>
           Returned "Error: Invalid JSON format in knowledge base file."
       | _ =>
           if isinstance_Exception e then Returned ("Error: " ++ exn_str e)
           else Raised e
       end).
End get_knowledge_base.

End Server.

(** ** The orchestrator: [apps/client.py] *)

Module Client.
Import Py.

(** *** Data exchanged with the tool host and the completion endpoint *)

(** A tool as [session.list_tools()] describes it. *)
Record tool : Type := {
  tool_name : string;
  tool_description : option string;
  tool_inputSchema : pyval
}.

(** The manifest entry [get_mcp_tools] builds for a tool:
    [{"type": ..., "function": {"name": ..., "description": ...,
    "parameters": ...}}]. *)
Record function_definition : Type := {
  fd_name : string;
  fd_description : option string;
  fd_parameters : pyval
}.
Record manifest_entry : Type := {
  me_type : string;
  me_function : function_definition
}.

(** A tool call of a completion: [tool_call.id],
    [tool_call.function.name], [tool_call.function.arguments]. *)
Record function_call : Type := {
  fn_name : string;
  fn_arguments : string
}.
Record tool_call : Type := {
  tc_id : string;
  tc_function : function_call
}.

(** [response.choices[k].message]: [content] and [tool_calls] may each be
    [None]. *)
Record chat_message : Type := {
  content : option string;
  tool_calls : option (list tool_call)
}.
Record choice : Type := { message : chat_message }.
Record chat_completion : Type := { choices : list choice }.

(** An entry of the [messages] list of [process_query]. *)
Inductive conversation_entry : Type :=
| UserMessage (text : string)
    (** [{"role": "user", "content": text}] *)
| AssistantMessage (m : chat_message)
    (** the [assistant_message] object as received *)
| ToolMessage (tool_call_id text : string)
    (** [{"role": "tool", "tool_call_id": ..., "content": text}] *).

(** The keyword arguments of [chat.completions.create]. *)
Record completion_request : Type := {
  rq_model : string;
  rq_messages : list conversation_entry;
  rq_tools : list manifest_entry;
  rq_tool_choice : string
}.

(** An element of [result.content]; only a text element has [.text]. *)
Inductive content_block : Type :=
| TextContent (text : string)
| ImageContent (data mimeType : string).

Record call_tool_result : Type := {
  result_content : list content_block;
  isError : bool
}.

(** *** The world the client talks to *)

(** What the client does to the outside, in the order it does it. *)
Inductive event : Type :=
| ListTools
| ChatCompletion (request : completion_request)
| CallTool (name : string) (arguments : pyval)
| Input (prompt : string)
| Print (text : string).

Definition history : Type := list event.

(** The tool host session, the completion endpoint, the terminal and the
    JSON decoder.  Each answer may depend on everything done before, and
    may be an exception. *)
Record environment : Type := {
  session_list_tools : history -> outcome (list tool);
  completions_create : history -> completion_request -> outcome chat_completion;
  session_call_tool : history -> string -> pyval -> outcome call_tool_result;
  input : history -> string -> outcome string;
  json_loads : string -> outcome pyval
}.

(** A computation of the client: from the history so far to a result or an
    exception and the history extended by what it did. *)
Definition M (A : Type) : Type := history -> outcome A * history.

Definition ret {A : Type} (a : A) : M A := fun h => (Returned a, h).

Definition raise {A : Type} (e : exn) : M A := fun h => (Raised e, h).

Definition lift {A : Type} (o : outcome A) : M A := fun h => (o, h).

Definition bind {A B : Type} (c : M A) (k : A -> M B) : M B :=
  fun h =>
    match c h with
    | (Returned a, h') => k a h'
    | (Raised e, h') => (Raised e, h')
    end.

(** An interaction: the event is recorded and the world's answer, which
    sees the history before it, is the result. *)
Definition perform {A : Type} (e : event) (answer : history -> outcome A) : M A :=
  fun h => (answer h, (h ++ [e])%list).

(** [try: body  except ...: handler] *)
Definition try_except {A : Type} (body : M A) (handler : exn -> M A) : M A :=
  fun h =>
    match body h with
    | (Returned a, h') => (Returned a, h')
    | (Raised e, h') => handler e h'
    end.

Declare Scope client_scope.
Delimit Scope client_scope with client.
Notation "x <- c ;; k" := (bind c (fun x => k))
  (at level 61, c at next level, right associativity) : client_scope.
Notation "c ;; k" := (bind c (fun _ => k))
  (at level 61, right associativity) : client_scope.
Local Open Scope client_scope.

(** [for x in l: state = body(state, x)], stopping at the first exception. *)
Fixpoint for_each {A S : Type} (l : list A) (body : S -> A -> M S) (s : S) : M S :=
  match l with
  | [] => ret s
  | x :: rest => s' <- body s x ;; for_each rest body s'
  end.

(** [l[0]] *)
Definition first_item {A : Type} (l : list A) : M A :=
  match l with
  | x :: _ => ret x
  | [] => raise (IndexError "list index out of range")
  end.

(** [block.text] *)
Definition text_of (block : content_block) : M string :=
  match block with
  | TextContent text => ret text
  | ImageContent _ _ =>
      raise (AttributeError "'ImageContent' object has no attribute 'text'")
  end.

(** The truth value of a list that may be [None]: [None] and the empty
    list are false. *)
Definition truthy {A : Type} (l : option (list A)) : bool :=
  match l with
  | Some (_ :: _) => true
  | Some [] | None => false
  end.

(** The items a [for] loop goes through; the loop is only reached for a
    list, after [truthy]. *)
Definition items_of {A : Type} (l : option (list A)) : list A :=
  match l with
  | Some items => items
  | None => []
  end.

(** [print(text)] *)
Definition print (text : string) : M unit :=
  perform (Print text) (fun _ => Returned tt).

(** How a turn of the chat loop ends: [break], or on to the next turn. *)
Inductive loop_control : Type := Continue | Break.

(** *** [MCPOpenAIClient] *)

Record MCPOpenAIClient : Type := { model : string }.

(** [MCPOpenAIClient()], with the default model. *)
Definition default_client : MCPOpenAIClient := {| model := "llama3.1" |}.

Section methods.
Variable env : environment.
Variable self : MCPOpenAIClient.

Definition manifest_of (t : tool) : manifest_entry :=
  {| me_type := "function";
     me_function := {| fd_name := tool_name t;
                       fd_description := tool_description t;
                       fd_parameters := tool_inputSchema t |} |}.

Definition get_mcp_tools : M (list manifest_entry) :=
  tools_result <- perform ListTools (session_list_tools env) ;;
  ret (map manifest_of tools_result).

Definition create (request : completion_request) : M chat_completion :=
  perform (ChatCompletion request) (fun h => completions_create env h request).

(** The body of [for tool_call in assistant_message.tool_calls]. *)
Definition handle_tool_call (messages : list conversation_entry) (tc : tool_call)
  : M (list conversation_entry) :=
  arguments <- lift (json_loads env (fn_arguments (tc_function tc))) ;;
  result <- perform (CallTool (fn_name (tc_function tc)) arguments)
                    (fun h => session_call_tool env h (fn_name (tc_function tc))
                                                arguments) ;;
  block <- first_item (result_content result) ;;
  text <- text_of block ;;
  ret (messages ++ [ToolMessage (tc_id tc) text])%list.

Definition process_query (query : string) : M (option string) :=
  tools <- get_mcp_tools ;;
  response <- create {| rq_model := model self;
                        rq_messages := [UserMessage query];
                        rq_tools := tools;
                        rq_tool_choice := "auto" |} ;;
  first_choice <- first_item (choices response) ;;
  let assistant_message := message first_choice in
  let messages := [UserMessage query; AssistantMessage assistant_message] in
  if truthy (tool_calls assistant_message) then
    messages <- for_each (items_of (tool_calls assistant_message))
                         handle_tool_call messages ;;
    final_response <- create {| rq_model := model self;
                                rq_messages := messages;
                                rq_tools := tools;
                                rq_tool_choice := "none" |} ;;
    final_choice <- first_item (choices final_response) ;;
    ret (content (message final_choice))
  else ret (content assistant_message).

(** ["\nAnswer: " + response]: a [TypeError] when the content is [None]. *)
Definition answer_line (response : option string) : M string :=
  match response with
  | Some text => ret (LF ++ "Answer: " ++ text)
  | None =>
      raise (TypeError ("can only concatenate str (not "
                        ++ String quote ("NoneType" ++ String quote ") to str")))
  end.

(** The prompt of [input]. *)
Definition prompt : string := LF ++ "Query: ".

(** The [try] block of the loop. *)
Definition attempt : M loop_control :=
  line <- perform (Input prompt) (fun h => input env h prompt) ;;
  let query := strip line in
  if String.eqb (lower query) "quit" then
    print (LF ++ "Goodbye!") ;;
    ret Break
  else
    response <- process_query query ;;
    line <- answer_line response ;;
    print line ;;
    ret Continue.

(** [except Exception as e]: what derives from [Exception] is printed and
    the loop goes on; anything else is not caught. *)
Definition handler (e : exn) : M loop_control :=
  if isinstance_Exception e then
    print (LF ++ "❌ Error: " ++ exn_str e) ;;
    ret Continue
  else raise e.

(** One turn of [while True]. *)
Definition iteration : M loop_control := try_except attempt handler.

(** [while True], cut after [fuel] turns: [None] when the loop is still
    running then, [Some tt] when it was left by [break]. *)
Fixpoint while_true (fuel : nat) : M (option unit) :=
  match fuel with
  | O => ret None
  | S n =>
      control <- iteration ;;
      match control with
      | Break => ret (Some tt)
      | Continue => while_true n
      end
  end.

Definition chat_loop (fuel : nat) : M (option unit) :=
  print (LF ++ "MCP Ollama Client Started! Type your queries or 'quit' to exit.") ;;
  while_true fuel.
End methods.

End Client.

(** ** The vocabulary of the specification *)

Module Spec.
Import Py.

(** The line every successful answer of the tool starts with, and the
    blank line after it. *)
Definition heading : string :=
  "Here is the retrieved knowledge base:" ++ LF ++ LF.

(** The pattern "Qk: <question>\nAk: <answer>". *)
Definition qa_pattern (k : Z) (question answer : string) : string :=
  "Q" ++ int_str k ++ ": " ++ question ++ LF ++ "A" ++ int_str k ++ ": " ++ answer.

(** A pattern closed by the blank line that separates it from the next. *)
Definition qa_block (k : Z) (question answer : string) : string :=
  qa_pattern k question answer ++ LF ++ LF.

(** The blocks of a text written one after the other. *)
Fixpoint concat_all (blocks : list string) : string :=
  match blocks with
  | [] => EmptyString
  | b :: rest => b ++ concat_all rest
  end.

(** The value a record holds in a field, if it has the field. *)
Fixpoint field_of (fields : list (string * pyval)) (key : string) : option pyval :=
  match fields with
  | [] => None
  | (k, v) :: rest => if String.eqb k key then Some v else field_of rest key
  end.

(** A record with a "question" and an "answer" field. *)
Definition qa_record (item : pyval) : Prop :=
  exists fields question answer,
    item = PyDict fields
    /\ field_of fields "question" = Some question
    /\ field_of fields "answer" = Some answer.

(** The text of a field, or the default written for a missing one. *)
Definition text_or (default : string) (field : option pyval) : string :=
  match field with
  | Some v => str v
  | None => default
  end.

(** The lines the loop of [get_knowledge_base] writes for one entry of
    [enumerate]. *)
Definition lines_of (entry : Z * pyval) : string :=
  Server.loop_body EmptyString entry.

End Spec.

(** ** Sample stores *)

Module Samples.
Import Py Server.

Definition server_py : string := "/srv/apps/server.py".

(** A decoder that knows the texts [json.dumps] writes for the given values
    and rejects every other text. *)
Fixpoint decoder (known : list pyval) (text : string) : outcome pyval :=
  match known with
  | [] => Raised (JSONDecodeError "Expecting value: line 1 column 1 (char 0)")
  | v :: rest =>
      if String.eqb text (json_dumps v 2) then Returned v else decoder rest text
  end.

(** A disk with a single file, the store, next to [server_py]. *)
Definition disk_with (content : string) : filesystem :=
  fun path =>
    if String.eqb path "/srv/apps/data/knowledge_base.json"
    then Some (RegularFile content) else None.

Definition empty_disk : filesystem := fun _ => None.

Definition two_records : pyval :=
  PyList [PyDict [("question", PyStr "What is MCP?");
                  ("answer", PyStr "A protocol for tools.")];
          PyDict [("answer", PyInt 42);
                  ("question", PyStr "What is the answer?")]].

Definition mixed_items : pyval :=
  PyList [PyStr "loose text";
          PyDict [("question", PyStr "Only a question")];
          PyDict [("answer", PyStr "Only an answer")]].

Definition single_object : pyval :=
  PyDict [("title", PyStr "FAQ"); ("entries", PyList [PyInt 1; PyInt 2])].

End Samples.

(** ** The vocabulary of the specification, for the orchestrator *)

Module Dialogue.
Import Py.
Import Client.

(** The first completion request of a query: the user message alone, and
    the model free to call tools. *)
Definition first_request (self : MCPOpenAIClient) (tools : list tool) (query : string)
  : completion_request :=
  {| rq_model := model self;
     rq_messages := [UserMessage query];
     rq_tools := map manifest_of tools;
     rq_tool_choice := "auto" |}.

(** The second completion request: the whole conversation, and tool calls
    disabled. *)
Definition final_request (self : MCPOpenAIClient) (tools : list tool)
           (conversation : list conversation_entry) : completion_request :=
  {| rq_model := model self;
     rq_messages := conversation;
     rq_tools := map manifest_of tools;
     rq_tool_choice := "none" |}.

(** The tool invocations among some events, in the order they were made. *)
Fixpoint tool_invocations (events : list event) : list (string * pyval) :=
  match events with
  | [] => []
  | CallTool name arguments :: rest => (name, arguments) :: tool_invocations rest
  | _ :: rest => tool_invocations rest
  end.

(** The completion requests among some events. *)
Fixpoint completion_requests (events : list event) : list completion_request :=
  match events with
  | [] => []
  | ChatCompletion request :: rest => request :: completion_requests rest
  | _ :: rest => completion_requests rest
  end.

(** What the tool host is asked for a tool call whose argument payload
    decodes to [arguments], and the tool message that carries the text of
    the first content element of its result. *)
Definition invocation_of (tc : tool_call) (arguments : pyval) : event :=
  CallTool (fn_name (tc_function tc)) arguments.

Definition tool_message_of (tc : tool_call) (text : string) : conversation_entry :=
  ToolMessage (tc_id tc) text.

(** [answered env h calls answers]: handled one after the other from the
    history [h], each of [calls] has a payload that decodes, and the tool
    host answers it with a result whose first content element is a text;
    [answers] lists, call by call, the decoded arguments and that text. *)
Inductive answered (env : environment)
  : history -> list tool_call -> list (pyval * string) -> Prop :=
| answered_none (h : history) : answered env h [] []
| answered_next (h : history) (tc : tool_call) (rest : list tool_call)
                (arguments : pyval) (result : call_tool_result)
                (text : string) (more : list content_block)
                (answers : list (pyval * string)) :
    json_loads env (fn_arguments (tc_function tc)) = Returned arguments ->
    session_call_tool env h (fn_name (tc_function tc)) arguments = Returned result ->
    result_content result = TextContent text :: more ->
    answered env (h ++ [invocation_of tc arguments])%list rest answers ->
    answered env h (tc :: rest) ((arguments, text) :: answers).

(** The events of handling [calls] with [answers], and the tool messages
    this adds to the conversation. *)
Definition invocations (calls : list tool_call) (answers : list (pyval * string))
  : list event :=
  map (fun ca => invocation_of (fst ca) (fst (snd ca))) (combine calls answers).

Definition tool_messages (calls : list tool_call) (answers : list (pyval * string))
  : list conversation_entry :=
  map (fun ca => tool_message_of (fst ca) (snd (snd ca))) (combine calls answers).

(** Text made of white space only. *)
Definition whitespace (s : string) : bool := blank s.

(** The capital of a small letter. *)
Definition capital (c : ascii) : ascii :=
  let n := N_of_ascii c in
  if ((97 <=? n) && (n <=? 122))%N then ascii_of_N (n - 32) else c.

(** [any_case word text]: [text] is [word], each letter in either case. *)
Fixpoint any_case (word text : string) : bool :=
  match word, text with
  | EmptyString, EmptyString => true
  | String c word', String d text' =>
      (Ascii.eqb d c || Ascii.eqb d (capital c)) && any_case word' text'
  | _, _ => false
  end.

(** A computation only ever adds to the history. *)
Definition extends {A : Type} (c : M A) : Prop :=
  forall h, exists done, snd (c h) = (h ++ done)%list.

End Dialogue.

(** ** Sample worlds *)

Module Scenario.
Import Py.
Import Client.

Definition kb_tool : tool :=
  {| tool_name := "get_knowledge_base";
     tool_description := Some "Retrieve the entire knowledge base as formatted string.";
     tool_inputSchema := PyDict [("type", PyStr "object"); ("properties", PyDict [])] |}.

(** A tool host that runs [Server.get_knowledge_base] over a disk holding
    the two sample records. *)
Definition host_call (h : history) (name : string) (arguments : pyval)
  : outcome call_tool_result :=
  if String.eqb name "get_knowledge_base" then
    match
      Server.get_knowledge_base
        (Samples.decoder [Samples.two_records])
        (Samples.disk_with (json_dumps Samples.two_records 2))
        Samples.server_py
    with
    | Returned text =>
        Returned {| result_content := [TextContent text]; isError := false |}
    | Raised e => Raised e
    end
  else Raised (OtherException "McpError" ("Unknown tool: " ++ name)).

(** A model with two replies: one to a request that lets it call tools, one
    to a request that does not. *)
Definition scripted_model (first final : chat_message)
           (h : history) (request : completion_request) : outcome chat_completion :=
  if String.eqb (rq_tool_choice request) "auto"
  then Returned {| choices := [{| message := first |}] |}
  else Returned {| choices := [{| message := final |}] |}.

Fixpoint inputs_so_far (h : history) : nat :=
  match h with
  | [] => O
  | Input _ :: rest => S (inputs_so_far rest)
  | _ :: rest => inputs_so_far rest
  end.

(** A terminal on which the given lines are typed, and then closed. *)
Definition typed (lines : list string) (h : history) (prompt : string)
  : outcome string :=
  match nth_error lines (inputs_so_far h) with
  | Some line => Returned line
  | None => Raised (EOFError "EOF when reading a line")
  end.

Definition world (first final : chat_message) (lines : list string) : environment :=
  {| session_list_tools := fun _ => Returned [kb_tool];
     completions_create := scripted_model first final;
     session_call_tool := host_call;
     input := typed lines;
     json_loads := Samples.decoder [PyDict []; PyDict [("topic", PyStr "mcp")]] |}.

(** A host that is down: every request to it fails. *)
Definition offline (first final : chat_message) (lines : list string) : environment :=
  {| session_list_tools := fun _ => Raised (OtherException "McpError" "Connection closed");
     completions_create := scripted_model first final;
     session_call_tool := fun _ _ _ => Raised (OtherException "McpError" "Connection closed");
     input := typed lines;
     json_loads := Samples.decoder [PyDict []] |}.

Definition kb_call : tool_call :=
  {| tc_id := "call_1";
     tc_function := {| fn_name := "get_knowledge_base"; fn_arguments := "{}" |} |}.

Definition asks_for_kb : chat_message :=
  {| Client.content := None; tool_calls := Some [kb_call] |}.

Definition plain_reply (text : string) : chat_message :=
  {| Client.content := Some text; tool_calls := None |}.

(** A second call, with an argument. *)
Definition topic_call : tool_call :=
  {| tc_id := "call_2";
     tc_function :=
       {| fn_name := "get_knowledge_base";
          fn_arguments := json_dumps (PyDict [("topic", PyStr "mcp")]) 2 |} |}.

Definition asks_twice : chat_message :=
  {| Client.content := None; tool_calls := Some [kb_call; topic_call] |}.

(** The text [host_call] answers with. *)
Definition kb_text : string :=
  Spec.heading
  ++ Spec.qa_block 1 "What is MCP?" "A protocol for tools."
  ++ Spec.qa_block 2 "What is the answer?" "42".

Definition kb_result : call_tool_result :=
  {| result_content := [TextContent kb_text]; isError := false |}.

Definition reply_of (m : chat_message) : chat_completion :=
  {| choices := [{| message := m |}] |}.

End Scenario.

(** ** The life of the client: [connect_to_server], [cleanup] and [main] *)

Module Lifecycle.
Import Py.
Import Client.

(** The two async context managers the client enters on its exit stack. *)
Inductive resource : Type :=
| StdioTransport (command : string) (args : list string)
| Session.

(** What the client does from start to end: what it does to its resources,
    and through [Chat] what it does once connected. *)
Inductive step : Type :=
| Entered (r : resource)
| EnterFailed (r : resource)
| Initialize
| Exited (r : resource)
| Chat (e : event).

(** The part of the steps the session, the endpoint and the terminal see. *)
Fixpoint chat_events (steps : list step) : history :=
  match steps with
  | [] => []
  | Chat e :: rest => e :: chat_events rest
  | _ :: rest => chat_events rest
  end.

(** The outside of the client: entering and leaving a context manager,
    [session.initialize()], and the world of the connected client. *)
Record host : Type := {
  aenter : list step -> resource -> outcome unit;
  session_initialize : list step -> outcome unit;
  aexit : list step -> resource -> outcome unit;
  chat : environment
}.

(** The client object over time: the steps taken and [self.exit_stack],
    the resource entered last first. *)
Record state : Type := {
  steps : list step;
  exit_stack : list resource
}.

Definition Run (A : Type) : Type := state -> outcome A * state.

Definition ret {A : Type} (a : A) : Run A := fun s => (Returned a, s).

Definition bind {A B : Type} (c : Run A) (k : A -> Run B) : Run B :=
  fun s =>
    match c s with
    | (Returned a, s') => k a s'
    | (Raised e, s') => (Raised e, s')
    end.

Declare Scope lifecycle_scope.
Delimit Scope lifecycle_scope with lifecycle.
Notation "x <- c ;; k" := (bind c (fun x => k))
  (at level 61, c at next level, right associativity) : lifecycle_scope.
Notation "c ;; k" := (bind c (fun _ => k))
  (at level 61, right associativity) : lifecycle_scope.
Local Open Scope lifecycle_scope.

(** A computation of the connected client, run on the chat events so far;
    the events it adds become steps. *)
Definition lift {A : Type} (c : M A) : Run A :=
  fun s =>
    let h := chat_events (steps s) in
    let (o, h') := c h in
    (o, {| steps := steps s ++ map Chat (skipn (List.length h) h');
           exit_stack := exit_stack s |}).

Section methods.
Variable w : host.

(** [await self.exit_stack.enter_async_context(cm)]: the context manager is
    entered, and pushed on the stack only when entering it succeeded. *)
Definition enter_async_context (r : resource) : Run unit :=
  fun s =>
    match aenter w (steps s) r with
    | Returned _ =>
        (Returned tt,
         {| steps := steps s ++ [Entered r]; exit_stack := r :: exit_stack s |})
    | Raised e =>
        (Raised e,
         {| steps := steps s ++ [EnterFailed r]; exit_stack := exit_stack s |})
    end.

(** [await self.session.initialize()] *)
Definition initialize : Run unit :=
  fun s =>
    (session_initialize w (steps s),
     {| steps := steps s ++ [Initialize]; exit_stack := exit_stack s |}).

(** [f"- {tool.name}: {tool.description}"] *)
Definition tool_line (t : tool) : string :=
  "- " ++ tool_name t ++ ": "
       ++ match tool_description t with
          | Some description => description
          | None => "None"
          end.

Definition connect_to_server (server_script_path : string) : Run unit :=
  enter_async_context (StdioTransport "python" [server_script_path]) ;;
  enter_async_context Session ;;
  initialize ;;
  tools_result <- lift (perform ListTools (session_list_tools (chat w))) ;;
  lift (print "Connected to server with tools:") ;;
  lift (for_each tools_result (fun _ t => print (tool_line t)) tt).

(** The unwinding of [AsyncExitStack.aclose()]: every context manager on the
    stack is left, the last entered first; one that raises does not stop the
    unwinding, and the exception raised last is the one that remains. *)
Fixpoint unwind (stack : list resource) (pending : option exn) (done : list step)
  : option exn * list step :=
  match stack with
  | [] => (pending, done)
  | r :: rest =>
      match aexit w done r with
      | Returned _ => unwind rest pending (done ++ [Exited r])
      | Raised e => unwind rest (Some e) (done ++ [Exited r])
      end
  end.

(** [await self.exit_stack.aclose()] *)
Definition cleanup : Run unit :=
  fun s =>
    let (pending, done) := unwind (exit_stack s) None (steps s) in
    (match pending with
     | None => Returned tt
     | Some e => Raised e
     end,
     {| steps := done; exit_stack := [] |}).

(** [try: body  finally: final], for a body that may still be running when
    the fuel of its loop is spent: then nothing more is done. *)
Definition try_finally (body : Run (option unit)) (final : Run unit)
  : Run (option unit) :=
  fun s =>
    match body s with
    | (Returned None, s') => (Returned None, s')
    | (o, s') =>
        match final s' with
        | (Raised e, s'') => (Raised e, s'')
        | (Returned _, s'') => (o, s'')
        end
    end.

(** [main()], from the steps taken before it, with a new client. *)
Definition main (fuel : nat) (before : list step) : outcome (option unit) * state :=
  try_finally
    (connect_to_server "server.py" ;;
     lift (chat_loop (chat w) default_client fuel))
    cleanup
    {| steps := before; exit_stack := [] |}.

End methods.

(** The resources entered and left along some steps, in order. *)
Fixpoint entered (l : list step) : list resource :=
  match l with
  | [] => []
  | Entered r :: rest => r :: entered rest
  | _ :: rest => entered rest
  end.

Fixpoint exited (l : list step) : list resource :=
  match l with
  | [] => []
  | Exited r :: rest => r :: exited rest
  | _ :: rest => exited rest
  end.

(** [balanced c]: [c] only adds steps, leaves no context manager, and the
    exit stack grows by what it entered, the last entered on top. *)
Definition balanced {A : Type} (c : Run A) : Prop :=
  forall s, exists added,
    steps (snd (c s)) = (steps s ++ added)%list
    /\ exit_stack (snd (c s)) = (rev (entered added) ++ exit_stack s)%list
    /\ exited added = [].

End Lifecycle.

(** ** Vocabulary for what else the two programs do *)

Module Behaviour.
Import Py.
Import Client.

(** What is shown of an item of the store: nothing of an item that is not a
    record, and of a record its "question" and "answer" fields. *)
Definition shown (item : pyval) : option (option pyval * option pyval) :=
  match item with
  | PyDict fields =>
      Some (Spec.field_of fields "question", Spec.field_of fields "answer")
  | _ => None
  end.

(** Reading the store failed: there is no regular file at its path, or the
    decoder raised on its content. *)
Definition read_failed (json_loads : string -> outcome pyval) (fs : Server.filesystem)
           (file : string) : Prop :=
  match fs (Server.kb_file file) with
  | Some (Server.RegularFile content) => exists e, json_loads content = Raised e
  | _ => True
  end.

Definition is_invocation (e : event) : Prop :=
  match e with
  | CallTool _ _ => True
  | _ => False
  end.

(** An invocation that carries out a tool call: it names the operation of
    the call, and its arguments are what the payload of the call decodes
    to. *)
Definition carries_out (env : environment) (tc : tool_call)
           (invocation : string * pyval) : Prop :=
  fst invocation = fn_name (tc_function tc)
  /\ json_loads env (fn_arguments (tc_function tc)) = Returned (snd invocation).

Definition is_tool_message (m : conversation_entry) : Prop :=
  match m with
  | ToolMessage _ _ => True
  | _ => False
  end.

(** The exception [result.content[0].text] raises, if it does: the content
    is empty, or its first element is not a text. *)
Definition unusable (content : list content_block) : option exn :=
  match content with
  | [] => Some (IndexError "list index out of range")
  | ImageContent _ _ :: _ =>
      Some (AttributeError "'ImageContent' object has no attribute 'text'")
  | TextContent _ :: _ => None
  end.

(** The events of [n] turns of the loop that each do the same. *)
Fixpoint turns (n : nat) (turn : list event) : list event :=
  match n with
  | O => []
  | S k => (turn ++ turns k turn)%list
  end.

End Behaviour.

(** ** Sample stores, worlds and hosts for those behaviours *)

Module Cases.
Import Py.
Import Client Lifecycle.

(** A decoder that gives up on deep nesting. *)
Definition deep_decoder (text : string) : outcome pyval :=
  Raised (OtherException "RecursionError" "maximum recursion depth exceeded").

(** A text of [n] opening brackets, and the number of them a text starts
    with. *)
Fixpoint brackets (n : nat) : string :=
  match n with
  | O => EmptyString
  | S k => String "[" (brackets k)
  end.

Fixpoint opening_depth (text : string) : nat :=
  match text with
  | String c rest => if Ascii.eqb c "[" then S (opening_depth rest) else O
  | EmptyString => O
  end.

(** A decoder with the recursion guard of [json.loads]: on a text that
    opens at least [limit] arrays one inside the other it raises
    [RecursionError]; any other text it decodes as [Samples.decoder] does. *)
Definition guarded_decoder (limit : nat) (known : list pyval) (text : string)
  : outcome pyval :=
  if Nat.leb limit (opening_depth text)
  then Raised (OtherException
                 "RecursionError"
                 ("maximum recursion depth exceeded while decoding "
                  ++ "a JSON array from a unicode string"))
  else Samples.decoder known text.

(** White space that is not ASCII, in UTF-8: a no-break space (U+00A0), an
    em space (U+2003) and an ideographic space (U+3000). *)
Definition nbsp : string :=
  String (ascii_of_N 194) (String (ascii_of_N 160) EmptyString).

Definition em_space : string :=
  String (ascii_of_N 226) (String (ascii_of_N 128) (String (ascii_of_N 131) EmptyString)).

Definition ideographic_space : string :=
  String (ascii_of_N 227) (String (ascii_of_N 128) (String (ascii_of_N 128) EmptyString)).

(** A disk on which the path of the store is a directory. *)
Definition disk_with_directory : Server.filesystem :=
  fun path =>
    if String.eqb path "/srv/apps/data/knowledge_base.json"
    then Some Server.Directory else None.

Definition first_record : pyval :=
  PyDict [("question", PyStr "What is MCP?");
          ("answer", PyStr "A protocol for tools.")].

(** The same record with a field the tool does not read. *)
Definition first_record_tagged : pyval :=
  PyDict [("source", PyStr "faq"); ("question", PyStr "What is MCP?");
          ("answer", PyStr "A protocol for tools.")].

Definition second_record : pyval :=
  PyDict [("question", PyStr "Who lists the tools?"); ("answer", PyNone)].

(** A world put together from its parts; payloads decode as in the sample
    worlds. *)
Definition world_of
           (list_tools : history -> outcome (list tool))
           (model : history -> completion_request -> outcome chat_completion)
           (call : history -> string -> pyval -> outcome call_tool_result)
           (lines : list string) : environment :=
  {| session_list_tools := list_tools;
     completions_create := model;
     session_call_tool := call;
     input := Scenario.typed lines;
     json_loads := Samples.decoder [PyDict []; PyDict [("topic", PyStr "mcp")]] |}.

Definition lists_kb_tool (h : history) : outcome (list tool) :=
  Returned [Scenario.kb_tool].

(** An endpoint that cannot be reached, and one that replies without any
    choice. *)
Definition endpoint_down (h : history) (request : completion_request)
  : outcome chat_completion :=
  Raised (OtherException "APIConnectionError" "Connection error.").

Definition no_choices (h : history) (request : completion_request)
  : outcome chat_completion :=
  Returned {| choices := [] |}.

(** An endpoint whose request is cancelled while it is awaited. *)
Definition cancelled (h : history) (request : completion_request)
  : outcome chat_completion :=
  Raised CancelledError.

(** A listing interrupted from the keyboard. *)
Definition interrupted (h : history) : outcome (list tool) :=
  Raised KeyboardInterrupt.

(** A host that has every tool asked for, and answers with its name. *)
Definition willing_host (h : history) (name : string) (arguments : pyval)
  : outcome call_tool_result :=
  Returned {| result_content := [TextContent ("result of " ++ name)];
              isError := false |}.

(** A host whose results have no content. *)
Definition empty_host (h : history) (name : string) (arguments : pyval)
  : outcome call_tool_result :=
  Returned {| result_content := []; isError := false |}.

(** A call whose payload is cut short, and a call of a tool the host does
    not have. *)
Definition garbled_call : tool_call :=
  {| tc_id := "call_3";
     tc_function := {| fn_name := "get_knowledge_base"; fn_arguments := "{oops" |} |}.

Definition unknown_call : tool_call :=
  {| tc_id := "call_4";
     tc_function := {| fn_name := "search"; fn_arguments := "{}" |} |}.

Definition asks (calls : list tool_call) : chat_message :=
  {| Client.content := None; tool_calls := Some calls |}.

(** A reply with neither content nor tool calls. *)
Definition empty_reply : chat_message :=
  {| Client.content := None; tool_calls := None |}.

(** A reply that no run comes to use, the tools of the sample host, and
    the first request of a query to the default client. *)
Definition reply : chat_message := Scenario.plain_reply "unused".

Definition tools : list tool := [Scenario.kb_tool].

Definition ask (query : string) : event :=
  ChatCompletion (Dialogue.first_request default_client tools query).

(** A host on which everything works, one on which the server does not
    start, and one on which the handshake fails. *)
Definition sound_host (env : environment) : host :=
  {| aenter := fun _ _ => Returned tt;
     session_initialize := fun _ => Returned tt;
     aexit := fun _ _ => Returned tt;
     chat := env |}.

Definition no_server (env : environment) : host :=
  {| aenter := fun _ r =>
                 match r with
                 | StdioTransport _ _ =>
                     Raised (FileNotFoundError
                               "[Errno 2] No such file or directory: 'python'")
                 | Session => Returned tt
                 end;
     session_initialize := fun _ => Returned tt;
     aexit := fun _ _ => Returned tt;
     chat := env |}.

Definition no_handshake (env : environment) : host :=
  {| aenter := fun _ _ => Returned tt;
     session_initialize :=
       fun _ => Raised (OtherException "McpError" "Connection closed");
     aexit := fun _ _ => Returned tt;
     chat := env |}.

End Cases.

(** ** Facts about text *)

Module Text.

Lemma append_assoc (a b c : string) : (a ++ b) ++ c = a ++ (b ++ c).
Proof.
  induction a as [| ch a IH]; simpl.
  - reflexivity.
  - now rewrite IH.
Qed.

Lemma append_empty_r (a : string) : a ++ EmptyString = a.
Proof.
  induction a as [| ch a IH]; simpl.
  - reflexivity.
  - now rewrite IH.
Qed.

Ltac bytes :=
  unfold Py.space_start, Py.space_byte, Py.space_pair, Py.space_triple in *;
  repeat match goal with
         | H : _ && _ = true |- _ => apply andb_prop in H as [? ?]
         | H : _ || _ = true |- _ => apply orb_prop in H as [? | ?]
         | H : (_ =? _)%N = true |- _ => apply N.eqb_eq in H
         | H : (_ <=? _)%N = true |- _ => apply N.leb_le in H
         end;
  try lia.

Lemma blank_start (a : ascii) (rest : string) :
  Py.blank (String a rest) = true -> Py.space_start (N_of_ascii a) = true.
Proof.
  cbn [Py.blank]. unfold Py.space_start.
  destruct (Py.space_byte (N_of_ascii a)) eqn:Ha; [reflexivity |].
  destruct rest as [| b rest2]; [discriminate |].
  destruct (Py.space_pair (N_of_ascii a) (N_of_ascii b)) eqn:Hab.
  - intros _. unfold Py.space_pair in Hab.
    apply andb_prop in Hab as [Hab _]. now rewrite Hab.
  - destruct rest2 as [| c rest3]; [discriminate |].
    intros H. apply andb_prop in H as [H _].
    unfold Py.space_triple in H.
    repeat match goal with
           | H : _ && _ = true |- _ => apply andb_prop in H as [H ?]
           | H : _ || _ = true |- _ => apply orb_prop in H as [H | H]
           end;
      rewrite H; cbn; now rewrite ?orb_true_r.
Qed.

Lemma start_is_no_second_byte (a b : N) :
  Py.space_start b = true -> Py.space_pair a b = false.
Proof.
  intros H. destruct (Py.space_pair a b) eqn:E; [exfalso | reflexivity]. bytes.
Qed.

Lemma start_is_no_middle_byte (a b c : N) :
  Py.space_start b = true -> Py.space_triple a b c = false.
Proof.
  intros H. destruct (Py.space_triple a b c) eqn:E; [exfalso | reflexivity]. bytes.
Qed.

Lemma start_is_no_last_byte (a b c : N) :
  Py.space_start c = true -> Py.space_triple a b c = false.
Proof.
  intros H. destruct (Py.space_triple a b c) eqn:E; [exfalso | reflexivity]. bytes.
Qed.


Lemma lstrip_whitespace_upto (s : string) (n : nat) :
  forall before,
    String.length before <= n ->
    Py.blank before = true -> Py.lstrip (before ++ s) = Py.lstrip s.
Proof.
  induction n as [| n IH]; intros before Hlen Hblank.
  - destruct before; [reflexivity | cbn in Hlen; lia].
  - destruct before as [| a rest]; [reflexivity |].
    cbn [String.length] in Hlen.
    change (String a rest ++ s) with (String a (rest ++ s)).
    cbn [Py.blank] in Hblank. cbn [Py.lstrip].
    destruct (Py.space_byte (N_of_ascii a)).
    { apply IH; [lia | exact Hblank]. }
    destruct rest as [| b rest2]; [discriminate Hblank |].
    cbn [String.length] in Hlen.
    change (String b rest2 ++ s) with (String b (rest2 ++ s)). cbv iota.
    destruct (Py.space_pair (N_of_ascii a) (N_of_ascii b)).
    { apply IH; [lia | exact Hblank]. }
    destruct rest2 as [| c rest3]; [discriminate Hblank |].
    cbn [String.length] in Hlen.
    change (String c rest3 ++ s) with (String c (rest3 ++ s)). cbv iota.
    apply andb_prop in Hblank as [Hc Hrest]. rewrite Hc.
    apply IH; [lia | exact Hrest].
Qed.

Lemma blank_app_upto (after : string) (n : nat) :
  Py.blank after = true ->
  forall x, String.length x <= n -> Py.blank (x ++ after) = Py.blank x.
Proof.
  intros Hafter.
  assert (Hstart : forall a b r, after = String b r ->
                                 Py.space_pair a (N_of_ascii b) = false).
  { intros a b r ->. apply start_is_no_second_byte, (blank_start _ _ Hafter). }
  assert (Hmid : forall a c b r, after = String b r ->
                                 Py.space_triple a (N_of_ascii b) c = false).
  { intros a c b r ->. apply start_is_no_middle_byte, (blank_start _ _ Hafter). }
  assert (Hlast : forall a b c r, after = String c r ->
                                  Py.space_triple a b (N_of_ascii c) = false).
  { intros a b c r ->. apply start_is_no_last_byte, (blank_start _ _ Hafter). }
  induction n as [| n IH]; intros x Hlen.
  - destruct x; [exact Hafter | cbn in Hlen; lia].
  - destruct x as [| a rest]; [exact Hafter |].
    cbn [String.length] in Hlen.
    change (String a rest ++ after) with (String a (rest ++ after)).
    cbn [Py.blank].
    destruct (Py.space_byte (N_of_ascii a)); [apply IH; lia |].
    destruct rest as [| b rest2].
    { change (EmptyString ++ after) with after.
      destruct after as [| b rest2] eqn:Ha; [reflexivity |].
      rewrite (Hstart (N_of_ascii a) b rest2 eq_refl).
      destruct rest2 as [| c rest3]; [reflexivity |].
      now rewrite (Hmid (N_of_ascii a) (N_of_ascii c) b (String c rest3) eq_refl). }
    cbn [String.length] in Hlen.
    change (String b rest2 ++ after) with (String b (rest2 ++ after)). cbv iota.
    destruct (Py.space_pair (N_of_ascii a) (N_of_ascii b)); [apply IH; lia |].
    destruct rest2 as [| c rest3].
    { change (EmptyString ++ after) with after.
      destruct after as [| c rest3] eqn:Ha; [reflexivity |].
      now rewrite (Hlast (N_of_ascii a) (N_of_ascii b) c rest3 eq_refl). }
    cbn [String.length] in Hlen.
    change (String c rest3 ++ after) with (String c (rest3 ++ after)). cbv iota.
    rewrite IH by lia. reflexivity.
Qed.

Lemma blank_app (x after : string) :
  Py.blank after = true -> Py.blank (x ++ after) = Py.blank x.
Proof.
  intros H. now apply (blank_app_upto after (String.length x) H).
Qed.

Lemma rstrip_blank (s : string) : Py.blank s = true -> Py.rstrip s = EmptyString.
Proof.
  destruct s; [reflexivity |]. cbn [Py.rstrip]. now intros ->.
Qed.

Lemma lstrip_blank (s : string) : Py.blank s = true -> Py.lstrip s = EmptyString.
Proof.
  intros H.
  rewrite <- (append_empty_r s) at 1.
  now rewrite (lstrip_whitespace_upto EmptyString (String.length s) s (le_n _) H).
Qed.

(** White space at the end of a text is dropped by [rstrip]. *)
Lemma rstrip_whitespace (s after : string) :
  Dialogue.whitespace after = true -> Py.rstrip (s ++ after) = Py.rstrip s.
Proof.
  intros H.
  induction s as [| a s IH].
  - now apply rstrip_blank.
  - change (String a s ++ after) with (String a (s ++ after)).
    cbn [Py.rstrip].
    change (String a (s ++ after)) with (String a s ++ after).
    now rewrite (blank_app (String a s) after H), IH.
Qed.

(** White space in front of a text is skipped by [lstrip]. *)
Lemma lstrip_whitespace (before s : string) :
  Dialogue.whitespace before = true -> Py.lstrip (before ++ s) = Py.lstrip s.
Proof.
  intros H. now apply (lstrip_whitespace_upto s (String.length before)).
Qed.

(** The sixteen spellings of "quit": each is lowered to "quit", and neither
    end of it is white space. *)
Lemma any_case_quit (word : string) :
  Dialogue.any_case "quit" word = true ->
  Py.lower word = "quit"
  /\ (forall rest, Py.lstrip (word ++ rest) = word ++ rest)
  /\ Py.rstrip word = word.
Proof.
  destruct word as [| c1 [| c2 [| c3 [| c4 [| c5 rest]]]]]; simpl; intros H;
    repeat match goal with
           | H : _ && _ = true |- _ => apply andb_prop in H as [? ?]
           | H : _ || _ = true |- _ => apply orb_prop in H as [? | ?]
           | H : Ascii.eqb _ _ = true |- _ => apply Ascii.eqb_eq in H; subst
           end;
    try discriminate; repeat split; reflexivity.
Qed.

(** The test of the loop accepts "quit" in any case, with white space
    around it. *)
Lemma quit_is_recognised (before word after : string) :
  Dialogue.whitespace before = true ->
  Dialogue.whitespace after = true ->
  Dialogue.any_case "quit" word = true ->
  Py.lower (Py.strip (before ++ word ++ after)) = "quit".
Proof.
  intros Hb Ha Hw.
  destruct (any_case_quit word Hw) as (Hlower & Hl & Hr).
  unfold Py.strip.
  now rewrite (lstrip_whitespace _ _ Hb), Hl, (rstrip_whitespace _ _ Ha), Hr.
Qed.

End Text.

(** ** Properties of the tool host *)

Module ServerProofs.
Import Py Server Spec.

Lemma loop_body_appends (kb_text : string) (entry : Z * pyval) :
  loop_body kb_text entry = kb_text ++ lines_of entry.
Proof.
  unfold lines_of, loop_body.
  destruct entry as [i item].
  destruct item; reflexivity.
Qed.

(** The loop only ever appends: its result is the text it started from
    followed by the lines of each entry, in order. *)
Lemma loop_appends_blocks (entries : list (Z * pyval)) :
  forall kb_text,
    fold_left loop_body entries kb_text
    = kb_text ++ concat_all (map lines_of entries).
Proof.
  induction entries as [| entry rest IH]; intros kb_text; simpl.
  - now rewrite Text.append_empty_r.
  - rewrite IH, loop_body_appends. apply Text.append_assoc.
Qed.

Lemma enumerate_length {A : Type} (l : list A) :
  forall start, List.length (enumerate l start) = List.length l.
Proof.
  induction l as [| x rest IH]; intros start; simpl.
  - reflexivity.
  - now rewrite IH.
Qed.

(** [enumerate] pairs the item at offset [k] with [start + k]. *)
Lemma enumerate_nth {A : Type} (l : list A) :
  forall start k x,
    nth_error l k = Some x ->
    nth_error (enumerate l start) k = Some ((start + Z.of_nat k)%Z, x).
Proof.
  induction l as [| y rest IH]; intros start k x Hk.
  - destruct k; discriminate.
  - destruct k as [| k]; simpl in *.
    + injection Hk as ->. now rewrite Z.add_0_r.
    + rewrite (IH (start + 1)%Z k x Hk).
      do 2 f_equal. lia.
Qed.

(** [d.get(key, default)] is the field when there is one and the default
    otherwise. *)
Lemma dict_get_field (fields : list (string * pyval)) (key : string) (default : pyval) :
  dict_get fields key default
  = match field_of fields key with
    | Some v => v
    | None => default
    end.
Proof.
  induction fields as [| [k v] rest IH]; simpl.
  - reflexivity.
  - destruct (String.eqb k key); [reflexivity | exact IH].
Qed.

(** What the tool answers once the store is read and decoded as a list:
    the heading and one group of lines per item. *)
Lemma get_knowledge_base_of_list
      (json_loads : string -> outcome pyval) (fs : filesystem) (file content : string)
      (items : list pyval) :
  fs (kb_file file) = Some (RegularFile content) ->
  json_loads content = Returned (PyList items) ->
  get_knowledge_base json_loads fs file
  = Returned (heading ++ concat_all (map lines_of (enumerate items 1))).
Proof.
  intros Hfile Hjson.
  unfold get_knowledge_base, open_read.
  rewrite Hfile. simpl. rewrite Hjson. simpl.
  now rewrite loop_appends_blocks.
Qed.

(** The lines written for the item at offset [k] of a list. *)
Lemma lines_of_nth (items : list pyval) (k : nat) (item : pyval) :
  nth_error items k = Some item ->
  nth_error (map lines_of (enumerate items 1)) k
  = Some (lines_of ((Z.of_nat k + 1)%Z, item)).
Proof.
  intros Hk.
  rewrite nth_error_map, (enumerate_nth items 1 k item Hk). simpl.
  now rewrite Z.add_comm.
Qed.

(** A block, written the way the loop concatenates it. *)
Lemma qa_block_lines (k : Z) (question answer : string) :
  qa_block k question answer
  = "Q" ++ int_str k ++ ": " ++ question ++ LF
    ++ "A" ++ int_str k ++ ": " ++ answer ++ LF ++ LF.
Proof.
  unfold qa_block, qa_pattern.
  now rewrite !Text.append_assoc.
Qed.

End ServerProofs.

(** ** The claims about the tool host *)

Module ServerClaims.
Import Py Server Spec.

(** C4.  When the store is a sequence of N records that each have a
    "question" and an "answer" field, the answer of [get_knowledge_base] is
    the heading followed by exactly N blocks, and the k-th block (k = 1..N,
    in the order of the records) is the pattern "Qk: <question>\nAk: <answer>"
    built from the k-th record, closed by a blank line. *)
Theorem numbered_pairs_in_record_order
        (json_loads : string -> outcome pyval) (fs : filesystem) (file content : string)
        (records : list pyval) :
  fs (kb_file file) = Some (RegularFile content) ->
  json_loads content = Returned (PyList records) ->
  Forall qa_record records ->
  exists blocks,
    get_knowledge_base json_loads fs file = Returned (heading ++ concat_all blocks)
    /\ List.length blocks = List.length records
    /\ forall k item,
        nth_error records k = Some item ->
        exists fields question answer,
          item = PyDict fields
          /\ field_of fields "question" = Some question
          /\ field_of fields "answer" = Some answer
          /\ nth_error blocks k
             = Some (qa_block (Z.of_nat k + 1) (str question) (str answer)).
Proof.
  intros Hfile Hjson Hrecords.
  exists (map lines_of (enumerate records 1)).
  split; [| split].
  - now apply ServerProofs.get_knowledge_base_of_list with (content := content).
  - now rewrite length_map, ServerProofs.enumerate_length.
  - intros k item Hk.
    rewrite Forall_forall in Hrecords.
    destruct (Hrecords item (nth_error_In _ _ Hk))
      as (fields & question & answer & -> & Hq & Ha).
    exists fields, question, answer.
    repeat split; try assumption.
    rewrite (ServerProofs.lines_of_nth _ _ _ Hk).
    unfold lines_of, loop_body.
    rewrite !ServerProofs.dict_get_field, Hq, Ha.
    now rewrite ServerProofs.qa_block_lines.
Qed.

(** C5, as amended.  When the store decodes to a value that is not a
    sequence, the answer is the heading "Here is the retrieved knowledge
    base:" and a blank line, followed by "Knowledge base content: ", the
    two-space indented [json.dumps] rendering of that value, and a blank
    line. *)
Theorem dump_of_other_values
        (json_loads : string -> outcome pyval) (fs : filesystem) (file content : string)
        (value : pyval) :
  fs (kb_file file) = Some (RegularFile content) ->
  json_loads content = Returned value ->
  isinstance_list value = false ->
  get_knowledge_base json_loads fs file
  = Returned (heading ++ "Knowledge base content: " ++ json_dumps value 2 ++ LF ++ LF).
Proof.
  intros Hfile Hjson Hkind.
  unfold get_knowledge_base, open_read.
  rewrite Hfile. simpl. rewrite Hjson. simpl.
  destruct value; try reflexivity.
  discriminate Hkind.
Qed.

(** C6.  When there is no file at the path of the store, the tool returns
    exactly "Error: Knowledge base file not found." as its result; it does not
    raise. *)
Theorem missing_file_is_reported
        (json_loads : string -> outcome pyval) (fs : filesystem) (file : string) :
  fs (kb_file file) = None ->
  get_knowledge_base json_loads fs file
  = Returned "Error: Knowledge base file not found.".
Proof.
  intros Hfile.
  unfold get_knowledge_base, open_read.
  now rewrite Hfile.
Qed.

(** C7, as amended.  When the file of the store exists and the decoder
    rejects its content with [JSONDecodeError], the tool returns exactly
    "Error: Invalid JSON format in knowledge base file."; it does not raise. *)
Theorem invalid_json_is_reported
        (json_loads : string -> outcome pyval) (fs : filesystem) (file content msg : string) :
  fs (kb_file file) = Some (RegularFile content) ->
  json_loads content = Raised (JSONDecodeError msg) ->
  get_knowledge_base json_loads fs file
  = Returned "Error: Invalid JSON format in knowledge base file.".
Proof.
  intros Hfile Hjson.
  unfold get_knowledge_base, open_read.
  rewrite Hfile. simpl. now rewrite Hjson.
Qed.

(** C10.  When the store is a sequence, the answer is the heading followed
    by one block per element; at position k an element that is not a record is
    written "Qk: Item k" and "Ak: k", and a record is written with the text of
    its "question" and "answer" fields, "No question provided" and "No answer"
    standing for a missing one. *)
Theorem items_and_defaults
        (json_loads : string -> outcome pyval) (fs : filesystem) (file content : string)
        (items : list pyval) :
  fs (kb_file file) = Some (RegularFile content) ->
  json_loads content = Returned (PyList items) ->
  exists blocks,
    get_knowledge_base json_loads fs file = Returned (heading ++ concat_all blocks)
    /\ List.length blocks = List.length items
    /\ forall k item,
        nth_error items k = Some item ->
        let n := (Z.of_nat k + 1)%Z in
        (isinstance_dict item = false ->
         nth_error blocks k = Some (qa_block n ("Item " ++ int_str n) (int_str n)))
        /\ (forall fields,
              item = PyDict fields ->
              nth_error blocks k
              = Some (qa_block n
                        (text_or "No question provided" (field_of fields "question"))
                        (text_or "No answer" (field_of fields "answer")))).
Proof.
  intros Hfile Hjson.
  exists (map lines_of (enumerate items 1)).
  split; [| split].
  - now apply ServerProofs.get_knowledge_base_of_list with (content := content).
  - now rewrite length_map, ServerProofs.enumerate_length.
  - intros k item Hk n.
    rewrite (ServerProofs.lines_of_nth _ _ _ Hk). fold n.
    split.
    + intros Hkind. rewrite ServerProofs.qa_block_lines.
      destruct item; try reflexivity. discriminate Hkind.
    + intros fields ->.
      unfold lines_of, loop_body.
      rewrite !ServerProofs.dict_get_field, ServerProofs.qa_block_lines.
      destruct (field_of fields "question"), (field_of fields "answer");
        reflexivity.
Qed.

(** *** The claims at the sample stores *)

Lemma numbered_pairs_at_two_records :
  let records :=
    [PyDict [("question", PyStr "What is MCP?");
             ("answer", PyStr "A protocol for tools.")];
     PyDict [("answer", PyInt 42); ("question", PyStr "What is the answer?")]] in
  let content := json_dumps (PyList records) 2 in
  (Samples.disk_with content (kb_file Samples.server_py) = Some (RegularFile content)
   /\ Samples.decoder [Samples.two_records] content = Returned (PyList records)
   /\ Forall qa_record records)
  /\ exists blocks,
      get_knowledge_base (Samples.decoder [Samples.two_records])
                         (Samples.disk_with content) Samples.server_py
      = Returned (heading ++ concat_all blocks)
      /\ List.length blocks = List.length records
      /\ forall k item,
          nth_error records k = Some item ->
          exists fields question answer,
            item = PyDict fields
            /\ field_of fields "question" = Some question
            /\ field_of fields "answer" = Some answer
            /\ nth_error blocks k
               = Some (qa_block (Z.of_nat k + 1) (str question) (str answer)).
Proof.
  intros records content.
  assert (Hrecords : Forall qa_record records).
  { repeat constructor; do 3 eexists; repeat split; reflexivity. }
  split.
  - split; [reflexivity | split; [reflexivity | exact Hrecords]].
  - apply (numbered_pairs_in_record_order
             (Samples.decoder [Samples.two_records]) (Samples.disk_with content)
             Samples.server_py content records);
      [reflexivity | reflexivity | exact Hrecords].
Defined.

Lemma dump_at_single_object :
  let content := json_dumps Samples.single_object 2 in
  (Samples.disk_with content (kb_file Samples.server_py) = Some (RegularFile content)
   /\ Samples.decoder [Samples.single_object] content = Returned Samples.single_object
   /\ isinstance_list Samples.single_object = false)
  /\ get_knowledge_base (Samples.decoder [Samples.single_object])
                        (Samples.disk_with content) Samples.server_py
     = Returned (heading ++ "Knowledge base content: "
                 ++ json_dumps Samples.single_object 2 ++ LF ++ LF).
Proof.
  intros content.
  split.
  - repeat split; reflexivity.
  - apply (dump_of_other_values
             (Samples.decoder [Samples.single_object]) (Samples.disk_with content)
             Samples.server_py content Samples.single_object); reflexivity.
Defined.

Lemma missing_file_at_empty_disk :
  Samples.empty_disk (kb_file Samples.server_py) = None
  /\ get_knowledge_base (Samples.decoder []) Samples.empty_disk Samples.server_py
     = Returned "Error: Knowledge base file not found.".
Proof.
  split.
  - reflexivity.
  - apply (missing_file_is_reported (Samples.decoder []) Samples.empty_disk
             Samples.server_py); reflexivity.
Defined.

Lemma invalid_json_at_truncated_store :
  let msg := "Expecting value: line 1 column 1 (char 0)" in
  (Samples.disk_with "[{" (kb_file Samples.server_py) = Some (RegularFile "[{")
   /\ Samples.decoder [Samples.two_records] "[{" = Raised (JSONDecodeError msg))
  /\ get_knowledge_base (Samples.decoder [Samples.two_records])
                        (Samples.disk_with "[{") Samples.server_py
     = Returned "Error: Invalid JSON format in knowledge base file.".
Proof.
  intros msg.
  split.
  - split; reflexivity.
  - apply (invalid_json_is_reported
             (Samples.decoder [Samples.two_records]) (Samples.disk_with "[{")
             Samples.server_py "[{" msg); reflexivity.
Defined.

Lemma items_and_defaults_at_mixed_items :
  let items :=
    [PyStr "loose text";
     PyDict [("question", PyStr "Only a question")];
     PyDict [("answer", PyStr "Only an answer")]] in
  let content := json_dumps (PyList items) 2 in
  (Samples.disk_with content (kb_file Samples.server_py) = Some (RegularFile content)
   /\ Samples.decoder [Samples.mixed_items] content = Returned (PyList items))
  /\ exists blocks,
      get_knowledge_base (Samples.decoder [Samples.mixed_items])
                         (Samples.disk_with content) Samples.server_py
      = Returned (heading ++ concat_all blocks)
      /\ List.length blocks = List.length items
      /\ forall k item,
          nth_error items k = Some item ->
          let n := (Z.of_nat k + 1)%Z in
          (isinstance_dict item = false ->
           nth_error blocks k = Some (qa_block n ("Item " ++ int_str n) (int_str n)))
          /\ (forall fields,
                item = PyDict fields ->
                nth_error blocks k
                = Some (qa_block n
                          (text_or "No question provided" (field_of fields "question"))
                          (text_or "No answer" (field_of fields "answer")))).
Proof.
  intros items content.
  split.
  - split; reflexivity.
  - apply (items_and_defaults
             (Samples.decoder [Samples.mixed_items]) (Samples.disk_with content)
             Samples.server_py content items); reflexivity.
Defined.

(** C5 as stated does not hold: for a store that is a single object the
    answer is not the dump with "Knowledge base content:" in front, since the
    heading comes first. *)
Lemma dump_does_not_open_the_answer :
  isinstance_list Samples.single_object = false
  /\ ~ exists dump,
        get_knowledge_base (Samples.decoder [Samples.single_object])
                           (Samples.disk_with (json_dumps Samples.single_object 2))
                           Samples.server_py
        = Returned ("Knowledge base content:" ++ dump).
Proof.
  split.
  - reflexivity.
  - intros [dump H]. vm_compute in H. discriminate H.
Qed.

(** C7 as stated does not hold: a store of two thousand opening brackets
    exists and is not JSON, the decoder rejects it with [RecursionError]
    rather than [JSONDecodeError], and the answer is the text of that
    exception, not "Error: Invalid JSON format in knowledge base file.". *)
Lemma deep_store_is_not_called_invalid_json :
  let content := Cases.brackets 2000 in
  let loads := Cases.guarded_decoder 1000 [Samples.two_records] in
  Samples.disk_with content (kb_file Samples.server_py) = Some (RegularFile content)
  /\ (exists e, loads content = Raised e)
  /\ get_knowledge_base loads (Samples.disk_with content) Samples.server_py
     = Returned ("Error: maximum recursion depth exceeded while decoding "
                 ++ "a JSON array from a unicode string")
  /\ get_knowledge_base loads (Samples.disk_with content) Samples.server_py
     <> Returned "Error: Invalid JSON format in knowledge base file.".
Proof.
  intros content loads.
  assert (Hout : get_knowledge_base loads (Samples.disk_with content) Samples.server_py
                 = Returned ("Error: maximum recursion depth exceeded while decoding "
                             ++ "a JSON array from a unicode string")).
  { vm_compute. reflexivity. }
  split; [reflexivity |].
  split; [eexists; vm_compute; reflexivity |].
  split; [exact Hout |].
  rewrite Hout. intros H. discriminate H.
Qed.

(** The answers themselves, at the sample stores. *)
Example answer_at_single_object :
  get_knowledge_base (Samples.decoder [Samples.single_object])
                     (Samples.disk_with (json_dumps Samples.single_object 2))
                     Samples.server_py
  = Returned ("Here is the retrieved knowledge base:" ++ LF ++ LF
              ++ "Knowledge base content: {" ++ LF
              ++ "  " ++ String quote "title" ++ String quote ": "
              ++ String quote "FAQ" ++ String quote "," ++ LF
              ++ "  " ++ String quote "entries" ++ String quote ": [" ++ LF
              ++ "    1," ++ LF
              ++ "    2" ++ LF
              ++ "  ]" ++ LF
              ++ "}" ++ LF ++ LF).
Proof. reflexivity. Qed.

Example answer_at_mixed_items :
  get_knowledge_base (Samples.decoder [Samples.mixed_items])
                     (Samples.disk_with (json_dumps Samples.mixed_items 2))
                     Samples.server_py
  = Returned (heading
              ++ qa_block 1 "Item 1" "1"
              ++ qa_block 2 "Only a question" "No answer"
              ++ qa_block 3 "No question provided" "Only an answer").
Proof. reflexivity. Qed.

Example answer_at_two_records :
  get_knowledge_base (Samples.decoder [Samples.two_records])
                     (Samples.disk_with (json_dumps Samples.two_records 2))
                     Samples.server_py
  = Returned (heading
              ++ qa_block 1 "What is MCP?" "A protocol for tools."
              ++ qa_block 2 "What is the answer?" "42").
Proof. reflexivity. Qed.

End ServerClaims.

(** ** How the orchestrator runs *)

Module ClientProofs.
Import Py.
Import Client Dialogue.
Local Open Scope list_scope.

Lemma bind_returned {A B : Type} (c : M A) (k : A -> M B) (h h' : history) (a : A) :
  c h = (Returned a, h') -> Client.bind c k h = k a h'.
Proof.
  intros H. unfold Client.bind. now rewrite H.
Qed.

Lemma bind_raised {A B : Type} (c : M A) (k : A -> M B) (h h' : history) (e : exn) :
  c h = (Raised e, h') -> Client.bind c k h = (Raised e, h').
Proof.
  intros H. unfold Client.bind. now rewrite H.
Qed.

(** *** Computations only add to the history *)

Lemma extends_ret {A : Type} (a : A) : extends (ret a).
Proof. intros h. exists []. simpl. now rewrite app_nil_r. Qed.

Lemma extends_raise {A : Type} (e : exn) : extends (@raise A e).
Proof. intros h. exists []. simpl. now rewrite app_nil_r. Qed.

Lemma extends_lift {A : Type} (o : outcome A) : extends (lift o).
Proof. intros h. exists []. simpl. now rewrite app_nil_r. Qed.

Lemma extends_perform {A : Type} (e : event) (answer : history -> outcome A) :
  extends (perform e answer).
Proof. intros h. now exists [e]. Qed.

Lemma extends_bind {A B : Type} (c : M A) (k : A -> M B) :
  extends c -> (forall a, extends (k a)) -> extends (Client.bind c k).
Proof.
  intros Hc Hk h. unfold Client.bind.
  destruct (Hc h) as [done Hdone].
  destruct (c h) as [[a | e] h1]; simpl in Hdone; subst h1.
  - destruct (Hk a (h ++ done)) as [more Hmore].
    exists (done ++ more). now rewrite Hmore, app_assoc.
  - now exists done.
Qed.

Lemma extends_try_except {A : Type} (body : M A) (handler : exn -> M A) :
  extends body -> (forall e, extends (handler e)) -> extends (try_except body handler).
Proof.
  intros Hc Hk h. unfold try_except.
  destruct (Hc h) as [done Hdone].
  destruct (body h) as [[a | e] h1]; simpl in Hdone; subst h1.
  - now exists done.
  - destruct (Hk e (h ++ done)) as [more Hmore].
    exists (done ++ more). now rewrite Hmore, app_assoc.
Qed.

Lemma extends_for_each {A S : Type} (l : list A) (body : S -> A -> M S) :
  (forall s x, extends (body s x)) -> forall s, extends (for_each l body s).
Proof.
  intros Hbody. induction l as [| x rest IH]; intros s; simpl.
  - apply extends_ret.
  - apply extends_bind; [apply Hbody | exact IH].
Qed.

Ltac extends_step :=
  match goal with
  | |- forall _, _ => intro
  | |- extends (Client.bind _ _) => apply extends_bind
  | |- extends (try_except _ _) => apply extends_try_except
  | |- extends (for_each _ _ _) => apply extends_for_each
  | |- extends (ret _) => apply extends_ret
  | |- extends (raise _) => apply extends_raise
  | |- extends (lift _) => apply extends_lift
  | |- extends (perform _ _) => apply extends_perform
  | |- extends (if ?b then _ else _) => destruct b
  | |- extends (match ?x with _ => _ end) => destruct x
  end.

(** *** Runs of [process_query] *)

Section runs.
Context (env : environment) (self : MCPOpenAIClient).

(** One tool call that is answered: one invocation, one tool message. *)
Lemma handle_tool_call_answered
      (messages : list conversation_entry) (tc : tool_call) (h : history)
      (arguments : pyval) (result : call_tool_result) (text : string)
      (more : list content_block) :
  json_loads env (fn_arguments (tc_function tc)) = Returned arguments ->
  session_call_tool env h (fn_name (tc_function tc)) arguments = Returned result ->
  result_content result = TextContent text :: more ->
  handle_tool_call env messages tc h
  = (Returned (messages ++ [tool_message_of tc text]),
     h ++ [invocation_of tc arguments]).
Proof.
  intros Hargs Hcall Hcontent.
  unfold handle_tool_call, Client.bind, lift, perform.
  now rewrite Hargs, Hcall, Hcontent.
Qed.

(** The loop over answered tool calls: the invocations are made and the
    tool messages appended call by call. *)
Lemma for_each_answered (calls : list tool_call) :
  forall (answers : list (pyval * string)) (h : history)
         (messages : list conversation_entry),
    answered env h calls answers ->
    for_each calls (handle_tool_call env) messages h
    = (Returned (messages ++ tool_messages calls answers),
       h ++ invocations calls answers).
Proof.
  induction calls as [| tc rest IH]; intros answers h messages Hans.
  - inversion Hans; subst.
    unfold tool_messages, invocations. simpl. now rewrite !app_nil_r.
  - inversion Hans as [| h0 tc0 rest0 arguments result text more answers'
                         Hargs Hcall Hcontent Hrest]; subst.
    simpl.
    erewrite bind_returned by (eapply handle_tool_call_answered; eassumption).
    rewrite (IH _ _ _ Hrest).
    unfold tool_messages, invocations. simpl.
    now rewrite <- !app_assoc.
Qed.

Lemma answered_length (calls : list tool_call) :
  forall (answers : list (pyval * string)) (h : history),
    answered env h calls answers -> List.length answers = List.length calls.
Proof.
  induction calls as [| tc rest IH]; intros answers h Hans;
    inversion Hans; subst; simpl.
  - reflexivity.
  - f_equal. eauto.
Qed.

(** A query whose first reply asks for tools, all of them answered. *)
Lemma process_query_with_calls
      (query : string) (h : history) (tools : list tool)
      (response : chat_completion) (first_choice : choice) (others : list choice)
      (calls : list tool_call) (answers : list (pyval * string))
      (final_response : chat_completion) (final_choice : choice)
      (final_others : list choice) :
  session_list_tools env h = Returned tools ->
  completions_create env (h ++ [ListTools]) (first_request self tools query)
  = Returned response ->
  choices response = first_choice :: others ->
  tool_calls (message first_choice) = Some calls ->
  calls <> [] ->
  answered env (h ++ [ListTools; ChatCompletion (first_request self tools query)])
           calls answers ->
  let conversation :=
    [UserMessage query; AssistantMessage (message first_choice)]
    ++ tool_messages calls answers in
  completions_create env
    (h ++ [ListTools; ChatCompletion (first_request self tools query)]
       ++ invocations calls answers)
    (final_request self tools conversation)
  = Returned final_response ->
  choices final_response = final_choice :: final_others ->
  process_query env self query h
  = (Returned (content (message final_choice)),
     h ++ [ListTools; ChatCompletion (first_request self tools query)]
       ++ invocations calls answers
       ++ [ChatCompletion (final_request self tools conversation)]).
Proof.
  intros Htools Hfirst Hchoice Hcalls Hsome Hans conversation Hfinal Hfinal_choice.
  destruct calls as [| call calls]; [contradiction |].
  unfold process_query, get_mcp_tools, create.
  unfold Client.bind at 1 2. unfold perform at 1. rewrite Htools.
  unfold ret at 1.
  unfold Client.bind at 1. unfold perform at 1.
  fold (first_request self tools query). rewrite Hfirst.
  unfold Client.bind at 1. rewrite Hchoice. unfold first_item at 1, ret at 1.
  rewrite Hcalls. cbn [truthy items_of].
  unfold Client.bind at 1.
  rewrite <- app_assoc. cbn [app].
  rewrite (for_each_answered _ _ _ _ Hans).
  unfold Client.bind at 1. unfold perform at 1.
  fold conversation. fold (final_request self tools conversation).
  rewrite <- app_assoc. rewrite Hfinal.
  unfold Client.bind at 1. rewrite Hfinal_choice.
  unfold first_item, ret.
  now rewrite <- !app_assoc.
Qed.

(** A query whose first reply asks for no tool. *)
Lemma process_query_without_calls
      (query : string) (h : history) (tools : list tool)
      (response : chat_completion) (first_choice : choice) (others : list choice) :
  session_list_tools env h = Returned tools ->
  completions_create env (h ++ [ListTools]) (first_request self tools query)
  = Returned response ->
  choices response = first_choice :: others ->
  truthy (tool_calls (message first_choice)) = false ->
  process_query env self query h
  = (Returned (content (message first_choice)),
     h ++ [ListTools; ChatCompletion (first_request self tools query)]).
Proof.
  intros Htools Hfirst Hchoice Hnone.
  unfold process_query, get_mcp_tools, create.
  unfold Client.bind at 1 2. unfold perform at 1. rewrite Htools.
  unfold ret at 1.
  unfold Client.bind at 1. unfold perform at 1.
  fold (first_request self tools query). rewrite Hfirst.
  unfold Client.bind at 1. rewrite Hchoice. unfold first_item at 1, ret at 1.
  rewrite Hnone. unfold ret.
  now rewrite <- app_assoc.
Qed.

(** Whatever the world answers, handling a tool call invokes the tool once,
    or not at all when its payload does not decode; and when it returns, the
    invocation was made. *)
Lemma handle_tool_call_events
      (messages : list conversation_entry) (tc : tool_call) (h : history) :
  (exists e, handle_tool_call env messages tc h = (Raised e, h))
  \/ exists arguments outcome,
      handle_tool_call env messages tc h
      = (outcome, h ++ [invocation_of tc arguments]).
Proof.
  unfold handle_tool_call, Client.bind, lift, perform, invocation_of.
  destruct (json_loads env (fn_arguments (tc_function tc))) as [arguments | e].
  - right. exists arguments.
    destruct (session_call_tool env h (fn_name (tc_function tc)) arguments)
      as [result | e]; [| eexists; reflexivity].
    destruct (result_content result) as [| [text | data mime] more];
      eexists; reflexivity.
  - left. now exists e.
Qed.

(** Whatever the world answers, the invocations made for the tool calls of a
    reply are those of the first calls of the reply, in its order. *)
Lemma invocations_follow_the_reply (calls : list tool_call) :
  forall (messages : list conversation_entry) (h : history),
  exists done n,
    snd (for_each calls (handle_tool_call env) messages h) = h ++ done
    /\ map fst (tool_invocations done)
       = firstn n (map (fun tc => fn_name (tc_function tc)) calls)
    /\ completion_requests done = [].
Proof.
  induction calls as [| tc rest IH]; intros messages h.
  - exists [], 0. simpl. now rewrite app_nil_r.
  - simpl. unfold Client.bind at 1.
    destruct (handle_tool_call_events messages tc h)
      as [[e He] | (arguments & [messages' | e] & Hcall)].
    + rewrite He. exists [], 0. simpl. now rewrite app_nil_r.
    + rewrite Hcall.
      destruct (IH messages' (h ++ [invocation_of tc arguments]))
        as (done & n & Hrun & Hnames & Hrequests).
      exists (invocation_of tc arguments :: done), (S n).
      rewrite Hrun, <- app_assoc. simpl.
      now rewrite Hnames, Hrequests.
    + rewrite Hcall. exists [invocation_of tc arguments], 1. simpl.
      repeat split; reflexivity.
Qed.
End runs.

(** *** The loop *)

Section loop.
Context (env : environment) (self : MCPOpenAIClient).

Lemma extends_process_query (query : string) : extends (process_query env self query).
Proof.
  unfold process_query, get_mcp_tools, create, handle_tool_call, first_item, text_of.
  repeat extends_step.
Qed.

Lemma extends_iteration : extends (iteration env self).
Proof.
  unfold iteration, attempt, handler, answer_line, print.
  repeat first [apply extends_process_query | extends_step].
Qed.

Lemma extends_while_true (fuel : nat) : extends (while_true env self fuel).
Proof.
  induction fuel as [| fuel IH]; simpl.
  - apply extends_ret.
  - apply extends_bind; [apply extends_iteration |].
    intros [|]; [exact IH | apply extends_ret].
Qed.

(** Processing a query starts by asking the host for its tools. *)
Lemma process_query_lists_tools_first (query : string) (h : history) :
  exists more, snd (process_query env self query h) = h ++ ListTools :: more.
Proof.
  unfold process_query. unfold Client.bind at 1.
  unfold get_mcp_tools at 1. unfold Client.bind at 1, perform at 1.
  destruct (session_list_tools env h) as [tools | e].
  - unfold ret at 1.
    match goal with
    | |- exists more, snd (?k (h ++ [ListTools])) = _ =>
        assert (Hk : extends k)
    end.
    { unfold create, handle_tool_call, first_item, text_of. repeat extends_step. }
    destruct (Hk (h ++ [ListTools])) as [more Hmore].
    exists more. rewrite Hmore. now rewrite <- app_assoc.
  - now exists [].
Qed.
(** A turn in which the quit command is typed. *)
Lemma iteration_quit (h : history) (line : string) :
  input env h prompt = Returned line ->
  lower (strip line) = "quit"%string ->
  iteration env self h
  = (Returned Break, h ++ [Input prompt; Print (LF ++ "Goodbye!")]).
Proof.
  intros Hinput Hquit.
  unfold iteration, try_except, attempt.
  unfold Client.bind at 1. unfold perform at 1.
  rewrite Hinput, Hquit. simpl.
  now rewrite <- app_assoc.
Qed.

(** The [try] block of a turn in which a query is typed. *)
Lemma attempt_query (h : history) (line : string) :
  input env h prompt = Returned line ->
  lower (strip line) <> "quit"%string ->
  attempt env self h
  = Client.bind (process_query env self (strip line))
      (fun response =>
         Client.bind (answer_line response)
           (fun line => Client.bind (print line) (fun _ => ret Continue)))
      (h ++ [Input prompt]).
Proof.
  intros Hinput Hquery.
  unfold attempt.
  unfold Client.bind at 1. unfold perform at 1.
  rewrite Hinput.
  apply String.eqb_neq in Hquery. now rewrite Hquery.
Qed.

(** What [except Exception] does with an exception of the [try] block. *)
Lemma iteration_caught (h h' : history) (e : exn) :
  attempt env self h = (Raised e, h') ->
  isinstance_Exception e = true ->
  iteration env self h
  = (Returned Continue, h' ++ [Print (LF ++ "❌ Error: " ++ exn_str e)]).
Proof.
  intros Hattempt Hclass.
  unfold iteration, try_except. rewrite Hattempt.
  unfold handler. now rewrite Hclass.
Qed.

Lemma iteration_not_caught (h h' : history) (e : exn) :
  attempt env self h = (Raised e, h') ->
  isinstance_Exception e = false ->
  iteration env self h = (Raised e, h').
Proof.
  intros Hattempt Hclass.
  unfold iteration, try_except. rewrite Hattempt.
  unfold handler. now rewrite Hclass.
Qed.

(** A turn in which a query is typed runs [process_query] on it, whatever
    comes of it. *)
Lemma iteration_processes (h : history) (line : string) :
  input env h prompt = Returned line ->
  lower (strip line) <> "quit"%string ->
  exists more,
    snd (iteration env self h)
    = snd (process_query env self (strip line) (h ++ [Input prompt])) ++ more.
Proof.
  intros Hinput Hquery.
  unfold iteration, try_except.
  rewrite (attempt_query h line Hinput Hquery).
  unfold Client.bind at 1.
  destruct (process_query env self (strip line) (h ++ [Input prompt]))
    as [[[text |] | e] h1]; simpl.
  - now exists [Print (LF ++ "Answer: " ++ text)].
  - eexists. reflexivity.
  - unfold handler. destruct (isinstance_Exception e); simpl.
    + eexists. reflexivity.
    + exists []. now rewrite app_nil_r.
Qed.

Lemma while_true_continue (fuel : nat) (h h' : history) :
  iteration env self h = (Returned Continue, h') ->
  while_true env self (S fuel) h = while_true env self fuel h'.
Proof.
  intros H. simpl. now rewrite (bind_returned _ _ _ _ _ H).
Qed.

Lemma while_true_break (fuel : nat) (h h' : history) :
  iteration env self h = (Returned Break, h') ->
  while_true env self (S fuel) h = (Returned (Some tt), h').
Proof.
  intros H. simpl. now rewrite (bind_returned _ _ _ _ _ H).
Qed.

(** A loop with a turn to go contains that turn. *)
Lemma while_true_runs_iteration (fuel : nat) (h : history) :
  exists more,
    snd (while_true env self (S fuel) h) = snd (iteration env self h) ++ more.
Proof.
  simpl. unfold Client.bind.
  destruct (iteration env self h) as [[[|] | e] h1]; simpl.
  - destruct (extends_while_true fuel h1) as [more Hmore].
    now exists more.
  - exists []. now rewrite app_nil_r.
  - exists []. now rewrite app_nil_r.
Qed.
End loop.

(** *** Reading a history *)

Lemma tool_invocations_app (a b : list event) :
  tool_invocations (a ++ b) = tool_invocations a ++ tool_invocations b.
Proof.
  induction a as [| e a IH]; simpl.
  - reflexivity.
  - destruct e; simpl; now rewrite IH.
Qed.

Lemma completion_requests_app (a b : list event) :
  completion_requests (a ++ b) = completion_requests a ++ completion_requests b.
Proof.
  induction a as [| e a IH]; simpl.
  - reflexivity.
  - destruct e; simpl; now rewrite IH.
Qed.

(** The events of handling tool calls are invocations and nothing else. *)
Lemma tool_invocations_of_calls (calls : list tool_call) :
  forall answers : list (pyval * string),
    tool_invocations (invocations calls answers)
    = map (fun ca => (fn_name (tc_function (fst ca)), fst (snd ca)))
          (combine calls answers)
    /\ completion_requests (invocations calls answers) = [].
Proof.
  unfold invocations.
  induction calls as [| tc rest IH]; intros [| answer answers]; simpl;
    try (split; reflexivity).
  destruct (IH answers) as [Hcalls Hrequests].
  now rewrite Hcalls, Hrequests.
Qed.

(** As many answers as calls: pairing them loses no call. *)
Lemma combine_fst {A B : Type} (l : list A) :
  forall l' : list B,
    List.length l' = List.length l -> map fst (combine l l') = l.
Proof.
  induction l as [| x l IH]; intros [| y l'] Hlen; simpl in *;
    try discriminate; try reflexivity.
  f_equal. apply IH. now injection Hlen.
Qed.

End ClientProofs.

(** ** The claims about the orchestrator *)

Module ClientClaims.
Import Py.
Import Client Dialogue.
Local Open Scope list_scope.

(** C1.  When the first reply of the model asks for the single operation
    "get_knowledge_base" with empty arguments, and the tool host and the
    model answer, [process_query] makes exactly one tool invocation, appends
    the text of its result as a tool message tagged with the identifier of
    the call, sends a second completion request whose [tool_choice] is
    "none", and returns the content of the reply to that second request. *)
Theorem single_knowledge_base_call
        (env : environment) (self : MCPOpenAIClient) (query : string) (h : history)
        (tools : list tool) (response : chat_completion) (first_choice : choice)
        (others : list choice) (tc : tool_call) (result : call_tool_result)
        (text : string) (more : list content_block)
        (final_response : chat_completion) (final_choice : choice)
        (final_others : list choice) :
  session_list_tools env h = Returned tools ->
  completions_create env (h ++ [ListTools]) (first_request self tools query)
  = Returned response ->
  choices response = first_choice :: others ->
  tool_calls (message first_choice) = Some [tc] ->
  fn_name (tc_function tc) = "get_knowledge_base"%string ->
  json_loads env (fn_arguments (tc_function tc)) = Returned (PyDict []) ->
  session_call_tool env
    (h ++ [ListTools; ChatCompletion (first_request self tools query)])
    "get_knowledge_base" (PyDict [])
  = Returned result ->
  result_content result = TextContent text :: more ->
  let conversation :=
    [UserMessage query; AssistantMessage (message first_choice);
     ToolMessage (tc_id tc) text] in
  completions_create env
    (h ++ [ListTools; ChatCompletion (first_request self tools query);
           CallTool "get_knowledge_base" (PyDict [])])
    (final_request self tools conversation)
  = Returned final_response ->
  choices final_response = final_choice :: final_others ->
  exists done,
    process_query env self query h
    = (Returned (content (message final_choice)), h ++ done)
    /\ done = [ListTools; ChatCompletion (first_request self tools query);
               CallTool "get_knowledge_base" (PyDict []);
               ChatCompletion (final_request self tools conversation)]
    /\ tool_invocations done = [("get_knowledge_base"%string, PyDict [])]
    /\ rq_tool_choice (final_request self tools conversation) = "none"%string.
Proof.
  intros Htools Hfirst Hchoice Hcalls Hname Hargs Hcall Hcontent conversation
         Hfinal Hfinal_choice.
  eexists. split; [| split; [reflexivity | split; reflexivity]].
  assert (Hans : answered env
                   (h ++ [ListTools; ChatCompletion (first_request self tools query)])
                   [tc] [(PyDict [], text)]).
  { eapply answered_next; [exact Hargs | rewrite Hname; exact Hcall
                           | exact Hcontent | apply answered_none]. }
  rewrite (ClientProofs.process_query_with_calls
             env self query h tools response first_choice others [tc]
             [(PyDict [], text)] final_response final_choice final_others
             Htools Hfirst Hchoice Hcalls).
  - unfold invocations, invocation_of. simpl. now rewrite Hname.
  - discriminate.
  - exact Hans.
  - unfold invocations, invocation_of, tool_messages, tool_message_of. simpl.
    rewrite Hname. exact Hfinal.
  - exact Hfinal_choice.
Qed.

(** C2.  When the first reply of the model has no tool call, [process_query]
    returns the content of that reply as it is, and makes no tool invocation:
    all it does is list the tools and send the one completion request. *)
Theorem direct_reply_is_returned
        (env : environment) (self : MCPOpenAIClient) (query : string) (h : history)
        (tools : list tool) (response : chat_completion) (first_choice : choice)
        (others : list choice) :
  session_list_tools env h = Returned tools ->
  completions_create env (h ++ [ListTools]) (first_request self tools query)
  = Returned response ->
  choices response = first_choice :: others ->
  tool_calls (message first_choice) = None
  \/ tool_calls (message first_choice) = Some [] ->
  exists done,
    process_query env self query h
    = (Returned (content (message first_choice)), h ++ done)
    /\ done = [ListTools; ChatCompletion (first_request self tools query)]
    /\ tool_invocations done = [].
Proof.
  intros Htools Hfirst Hchoice Hnone.
  eexists. split; [| split; reflexivity].
  apply (ClientProofs.process_query_without_calls
           env self query h tools response first_choice others Htools Hfirst Hchoice).
  destruct Hnone as [-> | ->]; reflexivity.
Qed.

(** C3.  When the first reply of the model carries tool calls and each is
    answered, [process_query] invokes them one after the other in the order
    of the reply, each invocation coming after the earlier ones in the
    history, and the tool messages of the conversation it then sends, each
    with the text of the first content element of its result and the
    identifier of its call, follow the same order. *)
Theorem tool_calls_in_emission_order
        (env : environment) (self : MCPOpenAIClient) (query : string) (h : history)
        (tools : list tool) (response : chat_completion) (first_choice : choice)
        (others : list choice) (calls : list tool_call)
        (answers : list (pyval * string))
        (final_response : chat_completion) (final_choice : choice)
        (final_others : list choice) :
  session_list_tools env h = Returned tools ->
  completions_create env (h ++ [ListTools]) (first_request self tools query)
  = Returned response ->
  choices response = first_choice :: others ->
  tool_calls (message first_choice) = Some calls ->
  calls <> [] ->
  answered env (h ++ [ListTools; ChatCompletion (first_request self tools query)])
           calls answers ->
  let conversation :=
    [UserMessage query; AssistantMessage (message first_choice)]
    ++ map (fun ca => ToolMessage (tc_id (fst ca)) (snd (snd ca)))
           (combine calls answers) in
  let calls_made :=
    map (fun ca => CallTool (fn_name (tc_function (fst ca))) (fst (snd ca)))
        (combine calls answers) in
  completions_create env
    (h ++ [ListTools; ChatCompletion (first_request self tools query)] ++ calls_made)
    (final_request self tools conversation)
  = Returned final_response ->
  choices final_response = final_choice :: final_others ->
  exists done,
    process_query env self query h
    = (Returned (content (message final_choice)), h ++ done)
    /\ done = [ListTools; ChatCompletion (first_request self tools query)]
              ++ calls_made
              ++ [ChatCompletion (final_request self tools conversation)]
    /\ map fst (tool_invocations done)
       = map (fun tc => fn_name (tc_function tc)) calls
    /\ completion_requests done
       = [first_request self tools query; final_request self tools conversation]
    /\ map fst (combine calls answers) = calls.
Proof.
  intros Htools Hfirst Hchoice Hcalls Hsome Hans conversation calls_made
         Hfinal Hfinal_choice.
  pose proof (ClientProofs.answered_length env calls answers _ Hans) as Hlen.
  pose proof (ClientProofs.combine_fst calls answers Hlen) as Hpairs.
  destruct (ClientProofs.tool_invocations_of_calls calls answers)
    as [Hinvoked Hrequests].
  change (invocations calls answers) with calls_made in Hinvoked, Hrequests.
  eexists. split; [| split; [reflexivity | split; [| split]]].
  - exact (ClientProofs.process_query_with_calls
             env self query h tools response first_choice others calls answers
             final_response final_choice final_others
             Htools Hfirst Hchoice Hcalls Hsome Hans Hfinal Hfinal_choice).
  - rewrite !ClientProofs.tool_invocations_app, Hinvoked. simpl.
    rewrite app_nil_r, map_map. simpl.
    rewrite <- Hpairs at 2. now rewrite map_map.
  - rewrite !ClientProofs.completion_requests_app, Hrequests. reflexivity.
  - exact Hpairs.
Qed.

(** C8, as amended.  When processing a query raises an exception that
    derives from [Exception], the turn of the loop catches it, prints it and
    ends normally; the loop goes on from there, and when a next query is typed
    it is read and [process_query] is run on it. *)
Theorem failed_query_does_not_stop_the_loop
        (env : environment) (self : MCPOpenAIClient) (h h' : history)
        (line : string) (e : exn) (fuel : nat) :
  input env h prompt = Returned line ->
  lower (strip line) <> "quit"%string ->
  process_query env self (strip line) (h ++ [Input prompt]) = (Raised e, h') ->
  isinstance_Exception e = true ->
  let reported := h' ++ [Print (LF ++ "❌ Error: " ++ exn_str e)%string] in
  iteration env self h = (Returned Continue, reported)
  /\ while_true env self (S fuel) h = while_true env self fuel reported
  /\ forall next,
      input env reported prompt = Returned next ->
      lower (strip next) <> "quit"%string ->
      exists more,
        snd (while_true env self (S (S fuel)) h)
        = snd (process_query env self (strip next) (reported ++ [Input prompt]))
          ++ more.
Proof.
  intros Hinput Hquery Hraised Hclass reported.
  assert (Hturn : iteration env self h = (Returned Continue, reported)).
  { apply ClientProofs.iteration_caught; [| exact Hclass].
    rewrite (ClientProofs.attempt_query env self h line Hinput Hquery).
    now apply ClientProofs.bind_raised. }
  pose proof (ClientProofs.while_true_continue env self) as Hloop.
  split; [exact Hturn | split; [now apply Hloop |]].
  intros next Hnext Hnext_query.
  rewrite (Hloop (S fuel) h reported Hturn).
  destruct (ClientProofs.while_true_runs_iteration env self fuel reported)
    as [more1 Hmore1].
  destruct (ClientProofs.iteration_processes env self reported next Hnext Hnext_query)
    as [more2 Hmore2].
  exists (more2 ++ more1).
  now rewrite Hmore1, Hmore2, app_assoc.
Qed.

(** C9.  When the line typed is "quit" in any letter case, with white space
    around it or not (the white space [str.strip] removes, Unicode's
    included), the loop ends in that turn by [break]: it does not raise, and
    it prints the farewell without listing tools, sending a completion request
    or invoking a tool, that is, without running [process_query], whose first
    step lists the tools. *)
Theorem quit_ends_the_loop
        (env : environment) (self : MCPOpenAIClient) (h : history)
        (before word after : string) (fuel : nat) :
  input env h prompt = Returned (before ++ word ++ after)%string ->
  whitespace before = true ->
  whitespace after = true ->
  any_case "quit" word = true ->
  exists done,
    while_true env self (S fuel) h = (Returned (Some tt), h ++ done)
    /\ done = [Input prompt; Print (LF ++ "Goodbye!")%string]
    /\ ~ In ListTools done
    /\ completion_requests done = []
    /\ tool_invocations done = [].
Proof.
  intros Hinput Hbefore Hafter Hword.
  eexists. split; [| split; [reflexivity | split; [| split; reflexivity]]].
  - apply ClientProofs.while_true_break.
    apply (ClientProofs.iteration_quit env self h _ Hinput).
    now apply Text.quit_is_recognised.
  - simpl. intros [H | [H | []]]; discriminate H.
Qed.

(** *** The claims in the sample worlds *)

Lemma single_call_in_sample_world :
  let final := Scenario.plain_reply "MCP is a protocol for tools." in
  let env := Scenario.world Scenario.asks_for_kb final [] in
  let self := default_client in
  let query := "What is MCP?"%string in
  let tools := [Scenario.kb_tool] in
  let conversation :=
    [UserMessage query; AssistantMessage Scenario.asks_for_kb;
     ToolMessage "call_1" Scenario.kb_text] in
  exists done,
    process_query env self query []
    = (Returned (Some "MCP is a protocol for tools."%string), [] ++ done)
    /\ done = [ListTools; ChatCompletion (first_request self tools query);
               CallTool "get_knowledge_base" (PyDict []);
               ChatCompletion (final_request self tools conversation)]
    /\ tool_invocations done = [("get_knowledge_base"%string, PyDict [])]
    /\ rq_tool_choice (final_request self tools conversation) = "none"%string.
Proof.
  intros final env self query tools conversation.
  apply (single_knowledge_base_call
           env self query [] tools
           (Scenario.reply_of Scenario.asks_for_kb)
           {| message := Scenario.asks_for_kb |} []
           Scenario.kb_call Scenario.kb_result Scenario.kb_text []
           (Scenario.reply_of final) {| message := final |} []);
    reflexivity.
Defined.

Lemma direct_reply_in_sample_world :
  let first := Scenario.plain_reply "Hello!" in
  let env := Scenario.world first first [] in
  let self := default_client in
  let query := "Say hello"%string in
  (tool_calls first = None \/ tool_calls first = Some [])
  /\ exists done,
      process_query env self query []
      = (Returned (Some "Hello!"%string), [] ++ done)
      /\ done = [ListTools; ChatCompletion (first_request self [Scenario.kb_tool] query)]
      /\ tool_invocations done = [].
Proof.
  intros first env self query.
  split.
  - left. reflexivity.
  - apply (direct_reply_is_returned
             env self query [] [Scenario.kb_tool] (Scenario.reply_of first)
             {| message := first |} []);
      [reflexivity | reflexivity | reflexivity | left; reflexivity].
Defined.

Lemma two_calls_in_sample_world :
  let final := Scenario.plain_reply "Both say the same." in
  let env := Scenario.world Scenario.asks_twice final [] in
  let self := default_client in
  let query := "What is MCP?"%string in
  let tools := [Scenario.kb_tool] in
  let calls := [Scenario.kb_call; Scenario.topic_call] in
  let answers :=
    [(PyDict [], Scenario.kb_text);
     (PyDict [("topic"%string, PyStr "mcp")], Scenario.kb_text)] in
  let conversation :=
    [UserMessage query; AssistantMessage Scenario.asks_twice]
    ++ map (fun ca => ToolMessage (tc_id (fst ca)) (snd (snd ca)))
           (combine calls answers) in
  let calls_made :=
    map (fun ca => CallTool (fn_name (tc_function (fst ca))) (fst (snd ca)))
        (combine calls answers) in
  exists done,
    process_query env self query []
    = (Returned (Some "Both say the same."%string), [] ++ done)
    /\ done = [ListTools; ChatCompletion (first_request self tools query)]
              ++ calls_made
              ++ [ChatCompletion (final_request self tools conversation)]
    /\ map fst (tool_invocations done)
       = map (fun tc => fn_name (tc_function tc)) calls
    /\ completion_requests done
       = [first_request self tools query; final_request self tools conversation]
    /\ map fst (combine calls answers) = calls.
Proof.
  intros final env self query tools calls answers conversation calls_made.
  apply (tool_calls_in_emission_order
           env self query [] tools
           (Scenario.reply_of Scenario.asks_twice)
           {| message := Scenario.asks_twice |} []
           calls answers
           (Scenario.reply_of final) {| message := final |} []);
    try reflexivity.
  - discriminate.
  - apply (answered_next env _ Scenario.kb_call [Scenario.topic_call]
             (PyDict []) Scenario.kb_result Scenario.kb_text []);
      try reflexivity.
    apply (answered_next env _ Scenario.topic_call []
             (PyDict [("topic"%string, PyStr "mcp")])
             Scenario.kb_result Scenario.kb_text []);
      try reflexivity.
    apply answered_none.
Defined.

Lemma failed_query_in_offline_world :
  let reply := Scenario.plain_reply "unused" in
  let env := Scenario.offline reply reply ["What is MCP?"; "And now?"]%string in
  let self := default_client in
  let e := OtherException "McpError" "Connection closed" in
  let reported :=
    [Input prompt; ListTools; Print (LF ++ "❌ Error: Connection closed")%string] in
  iteration env self [] = (Returned Continue, reported)
  /\ while_true env self 1 [] = while_true env self 0 reported
  /\ forall next,
      input env reported prompt = Returned next ->
      lower (strip next) <> "quit"%string ->
      exists more,
        snd (while_true env self 2 [])
        = snd (process_query env self (strip next) (reported ++ [Input prompt]))
          ++ more.
Proof.
  intros reply env self e reported.
  apply (failed_query_does_not_stop_the_loop
           env self [] [Input prompt; ListTools] "What is MCP?" e 0);
    [reflexivity | discriminate | reflexivity | reflexivity].
Defined.

Lemma quit_in_sample_world :
  let before := (" " ++ Cases.nbsp)%string in
  let after := (Cases.em_space ++ " " ++ LF)%string in
  let reply := Scenario.plain_reply "unused" in
  let env := Scenario.world reply reply [(before ++ "QuIt" ++ after)%string] in
  exists done,
    while_true env default_client 1 [] = (Returned (Some tt), [] ++ done)
    /\ done = [Input prompt; Print (LF ++ "Goodbye!")%string]
    /\ ~ In ListTools done
    /\ completion_requests done = []
    /\ tool_invocations done = [].
Proof.
  intros before after reply env.
  apply (quit_ends_the_loop env default_client [] before "QuIt" after 0);
    reflexivity.
Defined.

(** C8 as stated does not hold: when the completion request of the first
    query is cancelled, [process_query] raises [CancelledError], which does
    not derive from [Exception]; the loop does not catch it, prints no report
    and ends by raising it, and the second query, typed and waiting, is never
    read. *)
Lemma cancelled_query_ends_the_loop :
  let env :=
    Cases.world_of Cases.lists_kb_tool Cases.cancelled Scenario.host_call
                   ["What is MCP?"; "And now?"]%string in
  let done := [Input prompt; ListTools; Cases.ask "What is MCP?"] in
  process_query env default_client "What is MCP?" [Input prompt]
  = (Raised CancelledError, done)
  /\ isinstance_Exception CancelledError = false
  /\ input env done prompt = Returned "And now?"%string
  /\ forall fuel,
      while_true env default_client (S fuel) [] = (Raised CancelledError, done)
      /\ chat_loop env default_client (S fuel) []
         = (Raised CancelledError,
            Print (LF ++ "MCP Ollama Client Started! "
                      ++ "Type your queries or 'quit' to exit.")%string :: done).
Proof.
  intros env done.
  split; [reflexivity | split; [reflexivity | split; [reflexivity |]]].
  intros fuel. split; reflexivity.
Qed.

(** The quit command between white space that is not ASCII: a no-break
    space (U+00A0) before it and an em space (U+2003) after it. *)
Example quit_between_wide_spaces :
  let reply := Scenario.plain_reply "unused" in
  let env :=
    Scenario.world reply reply [(Cases.nbsp ++ "Quit" ++ Cases.em_space)%string] in
  whitespace Cases.nbsp = true
  /\ whitespace Cases.em_space = true
  /\ while_true env default_client 1 []
     = (Returned (Some tt), [Input prompt; Print (LF ++ "Goodbye!")%string]).
Proof. repeat split. Qed.

(** Whole sessions: a query that fails, a query that is answered through
    the tool, and the quit command. *)
Example session_with_offline_host :
  let reply := Scenario.plain_reply "unused" in
  chat_loop (Scenario.offline reply reply ["What is MCP?"; " Quit"]%string)
            default_client 5 []
  = (Returned (Some tt),
     [Print (LF ++ "MCP Ollama Client Started! Type your queries or 'quit' to exit.")%string;
      Input prompt; ListTools;
      Print (LF ++ "❌ Error: Connection closed")%string;
      Input prompt; Print (LF ++ "Goodbye!")%string]).
Proof. reflexivity. Qed.

Example session_with_tool_call :
  let final := Scenario.plain_reply "MCP is a protocol for tools." in
  let env := Scenario.world Scenario.asks_for_kb final ["What is MCP?"; "QUIT"]%string in
  exists done,
    chat_loop env default_client 5 [] = (Returned (Some tt), done)
    /\ tool_invocations done = [("get_knowledge_base"%string, PyDict [])]
    /\ In (Print (LF ++ "Answer: MCP is a protocol for tools.")%string) done.
Proof.
  eexists. split; [reflexivity | split; [reflexivity |]].
  simpl. intuition.
Qed.

End ClientClaims.

(** ** More about the tool host *)

Module ServerExtras.
Import Py Server Spec Behaviour.

Lemma concat_all_app (a b : list string) :
  concat_all (a ++ b)%list = concat_all a ++ concat_all b.
Proof.
  induction a as [| x a IH]; simpl.
  - reflexivity.
  - now rewrite IH, Text.append_assoc.
Qed.

Lemma enumerate_app {A : Type} (a b : list A) :
  forall start,
    enumerate (a ++ b)%list start
    = (enumerate a start ++ enumerate b (start + Z.of_nat (List.length a)))%list.
Proof.
  induction a as [| x a IH]; intros start; simpl.
  - now rewrite Z.add_0_r.
  - rewrite IH. do 3 f_equal. lia.
Qed.

Lemma lines_of_shown (i : Z) (a b : pyval) :
  shown a = shown b -> lines_of (i, a) = lines_of (i, b).
Proof.
  unfold lines_of, loop_body.
  destruct a, b; simpl; intros H; try discriminate; try reflexivity.
  injection H as Hq Ha.
  now rewrite !ServerProofs.dict_get_field, Hq, Ha.
Qed.

Lemma lines_of_enumerate_shown (a : list pyval) :
  forall (b : list pyval) start,
    map shown a = map shown b ->
    map lines_of (enumerate a start) = map lines_of (enumerate b start).
Proof.
  induction a as [| x a IH]; intros [| y b] start H;
    try discriminate H; try reflexivity.
  cbn [map] in H. injection H as Hx Hrest.
  cbn [enumerate map].
  now rewrite (lines_of_shown start x y Hx), (IH b (start + 1)%Z Hrest).
Qed.

Lemma report_is_an_error (msg : string) :
  String.prefix "Error: " ("Error: " ++ msg) = true.
Proof.
  simpl. now destruct msg.
Qed.

(** X1.  When decoding the store raises an exception that derives from
    [Exception] and is neither [FileNotFoundError] nor [JSONDecodeError],
    the tool returns "Error: " followed by the text of the exception. *)
Theorem other_failures_are_reported
        (json_loads : string -> outcome pyval) (fs : filesystem) (file content : string)
        (e : exn) :
  fs (kb_file file) = Some (RegularFile content) ->
  json_loads content = Raised e ->
  isinstance_Exception e = true ->
  (forall msg, e <> FileNotFoundError msg) ->
  (forall msg, e <> JSONDecodeError msg) ->
  get_knowledge_base json_loads fs file = Returned ("Error: " ++ exn_str e).
Proof.
  intros Hfile Hjson Hclass Hnf Hnj.
  unfold get_knowledge_base, open_read.
  rewrite Hfile. simpl. rewrite Hjson. simpl.
  destruct e; try reflexivity; try discriminate Hclass.
  - now destruct (Hnf msg).
  - now destruct (Hnj msg).
Qed.

(** X2.  When the path of the store is a directory, [open] raises
    [IsADirectoryError] and the tool returns "Error: " followed by its text;
    it does not raise. *)
Theorem directory_is_reported
        (json_loads : string -> outcome pyval) (fs : filesystem) (file : string) :
  fs (kb_file file) = Some Directory ->
  get_knowledge_base json_loads fs file
  = Returned ("Error: [Errno 21] Is a directory: " ++ str_repr (kb_file file)).
Proof.
  intros Hfile. unfold get_knowledge_base, open_read. now rewrite Hfile.
Qed.

(** X3.  With a decoder that raises nothing outside [Exception], the tool
    always returns a text, and that text starts with "Error: " exactly when
    reading the store failed: an answer made from a store never does. *)
Theorem error_prefix_tells_failure
        (json_loads : string -> outcome pyval) (fs : filesystem) (file : string) :
  (forall text e, json_loads text = Raised e -> isinstance_Exception e = true) ->
  exists text,
    get_knowledge_base json_loads fs file = Returned text
    /\ (String.prefix "Error: " text = true <-> read_failed json_loads fs file).
Proof.
  intros Hdecoder.
  unfold read_failed, get_knowledge_base, open_read.
  destruct (fs (kb_file file)) as [[content |] |]; simpl.
  - destruct (json_loads content) as [value | e] eqn:Hjson; simpl.
    + eexists. split; [reflexivity |].
      split; [intros H | intros [e He]; discriminate He].
      destruct value;
        try (rewrite ServerProofs.loop_appends_blocks in H);
        simpl in H; discriminate H.
    + specialize (Hdecoder content e Hjson).
      destruct e; try discriminate Hdecoder;
        (eexists; split;
         [reflexivity
         | split; [intros _; eexists; reflexivity
                  | intros _; first [reflexivity | apply report_is_an_error]]]).
  - eexists. split; [reflexivity | split; [easy | intros _; apply report_is_an_error]].
  - eexists. split; [reflexivity | easy].
Qed.

(** X4.  For a store that is an empty sequence the answer is the heading
    alone. *)
Theorem empty_store_gives_the_heading_alone
        (json_loads : string -> outcome pyval) (fs : filesystem) (file content : string) :
  fs (kb_file file) = Some (RegularFile content) ->
  json_loads content = Returned (PyList []) ->
  get_knowledge_base json_loads fs file = Returned heading.
Proof.
  intros Hfile Hjson.
  rewrite (ServerProofs.get_knowledge_base_of_list _ _ _ _ _ Hfile Hjson).
  cbn [enumerate map concat_all]. now rewrite Text.append_empty_r.
Qed.

(** X5.  Items added at the end of a store leave the answer for the earlier
    items as it was: the new answer is the old one followed by the lines of
    the added items, numbered on from the old count. *)
Theorem longer_store_extends_the_answer
        (loads loads' : string -> outcome pyval) (fs fs' : filesystem)
        (file file' content content' : string) (items more : list pyval) :
  fs (kb_file file) = Some (RegularFile content) ->
  loads content = Returned (PyList items) ->
  fs' (kb_file file') = Some (RegularFile content') ->
  loads' content' = Returned (PyList (items ++ more)) ->
  exists text,
    get_knowledge_base loads fs file = Returned text
    /\ get_knowledge_base loads' fs' file'
       = Returned (text ++ concat_all
                             (map lines_of
                                  (enumerate more (Z.of_nat (List.length items) + 1)))).
Proof.
  intros Hfile Hjson Hfile' Hjson'.
  eexists. split.
  - exact (ServerProofs.get_knowledge_base_of_list _ _ _ _ _ Hfile Hjson).
  - rewrite (ServerProofs.get_knowledge_base_of_list _ _ _ _ _ Hfile' Hjson').
    rewrite enumerate_app, map_app, concat_all_app, Text.append_assoc.
    now rewrite (Z.add_comm 1).
Qed.

(** X6.  The answer for a sequence depends only on, item by item, whether
    the item is a record and what its "question" and "answer" fields are:
    other fields, and the value of an item that is not a record, never show. *)
Theorem answer_depends_on_what_is_shown
        (loads loads' : string -> outcome pyval) (fs fs' : filesystem)
        (file file' content content' : string) (items items' : list pyval) :
  fs (kb_file file) = Some (RegularFile content) ->
  loads content = Returned (PyList items) ->
  fs' (kb_file file') = Some (RegularFile content') ->
  loads' content' = Returned (PyList items') ->
  map shown items = map shown items' ->
  get_knowledge_base loads fs file = get_knowledge_base loads' fs' file'.
Proof.
  intros Hfile Hjson Hfile' Hjson' Hshown.
  rewrite (ServerProofs.get_knowledge_base_of_list _ _ _ _ _ Hfile Hjson).
  rewrite (ServerProofs.get_knowledge_base_of_list _ _ _ _ _ Hfile' Hjson').
  now rewrite (lines_of_enumerate_shown items items' 1 Hshown).
Qed.

End ServerExtras.

(** ** Where the store is looked for *)

Module StorePath.
Import Py Server.

Lemma contains_char_app (c : ascii) (a b : string) :
  contains_char c (a ++ b) = contains_char c a || contains_char c b.
Proof.
  induction a as [| d a IH]; simpl.
  - reflexivity.
  - now rewrite IH, orb_assoc.
Qed.

Lemma upto_last_slash_none (name : string) :
  contains_char slash name = false -> upto_last_slash name = EmptyString.
Proof.
  destruct name as [| c name]; [reflexivity |].
  intros H. cbn [upto_last_slash]. now rewrite H.
Qed.

Lemma upto_last_slash_dir (dir name : string) :
  contains_char slash name = false ->
  upto_last_slash (dir ++ "/" ++ name) = dir ++ "/".
Proof.
  intros Hname.
  induction dir as [| c dir IH].
  - change (EmptyString ++ "/" ++ name) with (String slash name).
    cbn [upto_last_slash contains_char].
    rewrite Ascii.eqb_refl. cbn [orb].
    now rewrite (upto_last_slash_none name Hname).
  - change (String c dir ++ "/" ++ name) with (String c (dir ++ "/" ++ name)).
    cbn [upto_last_slash contains_char].
    rewrite contains_char_app.
    change (contains_char slash ("/" ++ name)) with (Ascii.eqb slash slash || contains_char slash name).
    rewrite Ascii.eqb_refl, IH. cbn [orb]. rewrite !orb_true_r. reflexivity.
Qed.

Lemma endswith_slash_app (a b : string) :
  b <> EmptyString -> endswith_slash (a ++ b) = endswith_slash b.
Proof.
  intros Hb. induction a as [| c a IH]; [reflexivity |].
  change (String c a ++ b) with (String c (a ++ b)).
  cbn [endswith_slash]. rewrite IH.
  destruct (a ++ b) eqn:Hab; [| reflexivity].
  destruct a; [simpl in Hab; contradiction | discriminate Hab].
Qed.

Lemma all_slashes_open_dir (dir rest : string) :
  dir <> EmptyString -> endswith_slash dir = false -> all_slashes (dir ++ rest) = false.
Proof.
  induction dir as [| c dir IH]; intros Hne Hend; [contradiction |].
  change (String c dir ++ rest) with (String c (dir ++ rest)).
  cbn [all_slashes].
  destruct dir as [| d dir].
  - cbn [endswith_slash] in Hend. now rewrite Hend.
  - rewrite IH; [apply andb_false_r | discriminate | exact Hend].
Qed.

Lemma rstrip_slash_dir (dir : string) :
  dir <> EmptyString -> endswith_slash dir = false -> rstrip_slash (dir ++ "/") = dir.
Proof.
  induction dir as [| c dir IH]; intros Hne Hend; [contradiction |].
  change (String c dir ++ "/") with (String c (dir ++ "/")).
  cbn [rstrip_slash].
  destruct dir as [| d dir].
  - cbn [endswith_slash] in Hend. simpl. now rewrite Hend.
  - rewrite IH; [reflexivity | discriminate | exact Hend].
Qed.

(** X7.  For a script at [dir/name], with [dir] not empty and not ending in
    a slash, the store is looked for at [dir/data/knowledge_base.json]: beside
    the script, wherever the process was started. *)
Theorem store_is_beside_the_script (dir name : string) :
  dir <> EmptyString ->
  endswith_slash dir = false ->
  contains_char slash name = false ->
  kb_file (dir ++ "/" ++ name) = dir ++ "/data/knowledge_base.json".
Proof.
  intros Hne Hend Hname.
  unfold kb_file, os_path_dirname.
  rewrite (upto_last_slash_dir dir name Hname).
  rewrite (all_slashes_open_dir dir "/" Hne Hend).
  assert (Hhead : String.eqb (dir ++ "/") EmptyString = false).
  { destruct dir; [contradiction | reflexivity]. }
  rewrite Hhead. cbn [negb andb].
  rewrite (rstrip_slash_dir dir Hne Hend).
  unfold os_path_join. cbn [fold_left].
  unfold join_component at 2. cbn [startswith_slash]. 
  assert (Hdir : String.eqb dir EmptyString = false).
  { destruct dir; [contradiction | reflexivity]. }
  change (Ascii.eqb "d" slash) with false. cbv iota.
  rewrite Hdir, Hend. cbn [orb].
  unfold join_component. cbn [startswith_slash].
  change (Ascii.eqb "k" slash) with false. cbv iota.
  rewrite endswith_slash_app by discriminate.
  assert (Hd : String.eqb (dir ++ "/" ++ "data") EmptyString = false).
  { destruct dir; [contradiction | reflexivity]. }
  rewrite Hd. cbn [orb]. change (endswith_slash ("/" ++ "data")) with false. cbv iota.
  now rewrite !Text.append_assoc.
Qed.

End StorePath.

(** ** More about [process_query] *)

Module QueryExtras.
Import Py.
Import Client Dialogue Behaviour ClientProofs.
Local Open Scope list_scope.

Section query.
Context (env : environment) (self : MCPOpenAIClient).

Lemma for_each_stops (good : list tool_call) :
  forall (answers : list (pyval * string)) (h h' : history)
         (messages : list conversation_entry) (bad : tool_call)
         (rest : list tool_call) (e : exn),
    answered env h good answers ->
    (forall messages',
        handle_tool_call env messages' bad (h ++ invocations good answers)
        = (Raised e, h')) ->
    for_each (good ++ bad :: rest) (handle_tool_call env) messages h = (Raised e, h').
Proof.
  induction good as [| tc good IH]; intros answers h h' messages bad rest e Hans Hbad.
  - inversion Hans; subst. cbn [app for_each].
    unfold invocations in Hbad. cbn in Hbad. rewrite app_nil_r in Hbad.
    now rewrite (bind_raised _ _ _ _ _ (Hbad messages)).
  - inversion Hans as [| h0 tc0 rest0 arguments result text more answers'
                         Hargs Hcall Hcontent Hrest]; subst.
    cbn [app for_each].
    erewrite bind_returned
      by (eapply handle_tool_call_answered; eassumption).
    apply (IH answers' _ h' _ bad rest e Hrest).
    intros messages'. rewrite <- (Hbad messages').
    unfold invocations. cbn [combine map fst snd]. now rewrite <- app_assoc.
Qed.

Lemma process_query_with_failed_call
      (query : string) (h h' : history) (tools : list tool)
      (response : chat_completion) (first_choice : choice) (others : list choice)
      (good : list tool_call) (answers : list (pyval * string))
      (bad : tool_call) (rest : list tool_call) (e : exn) :
  session_list_tools env h = Returned tools ->
  completions_create env (h ++ [ListTools]) (first_request self tools query)
  = Returned response ->
  choices response = first_choice :: others ->
  tool_calls (message first_choice) = Some (good ++ bad :: rest) ->
  answered env (h ++ [ListTools; ChatCompletion (first_request self tools query)])
           good answers ->
  (forall messages',
      handle_tool_call env messages' bad
        (h ++ [ListTools; ChatCompletion (first_request self tools query)]
           ++ invocations good answers)
      = (Raised e, h')) ->
  process_query env self query h = (Raised e, h').
Proof.
  intros Htools Hfirst Hchoice Hcalls Hans Hbad.
  unfold process_query, get_mcp_tools, create.
  unfold Client.bind at 1 2. unfold perform at 1. rewrite Htools.
  unfold ret at 1.
  unfold Client.bind at 1. unfold perform at 1.
  fold (first_request self tools query). rewrite Hfirst.
  unfold Client.bind at 1. rewrite Hchoice. unfold first_item at 1, ret at 1.
  rewrite Hcalls.
  assert (Htruthy : truthy (Some (good ++ bad :: rest)) = true).
  { destruct good; reflexivity. }
  rewrite Htruthy. cbn [items_of].
  unfold Client.bind at 1.
  rewrite <- app_assoc. cbn [app].
  erewrite for_each_stops; [reflexivity | exact Hans |].
  intros messages'. rewrite <- (Hbad messages'). now rewrite <- app_assoc.
Qed.

Lemma for_each_only_invokes (calls : list tool_call) :
  forall (messages : list conversation_entry) (h : history),
  exists done,
    snd (for_each calls (handle_tool_call env) messages h) = h ++ done
    /\ Forall is_invocation done
    /\ forall messages',
        fst (for_each calls (handle_tool_call env) messages h) = Returned messages' ->
        exists added,
          messages' = messages ++ added
          /\ Forall is_tool_message added
          /\ List.length added = List.length calls.
Proof.
  induction calls as [| tc rest IH]; intros messages h.
  - exists []. cbn. rewrite app_nil_r. repeat split; [constructor |].
    intros messages' H. injection H as <-. exists [].
    rewrite app_nil_r. repeat split. constructor.
  - cbn [for_each]. unfold Client.bind at 1 2.
    destruct (handle_tool_call_events env messages tc h)
      as [[e He] | (arguments & [next | e] & Hcall)].
    + rewrite He. exists []. cbn. rewrite app_nil_r.
      repeat split; [constructor | discriminate].
    + rewrite Hcall.
      destruct (IH next (h ++ [invocation_of tc arguments]))
        as (done & Hrun & Hkind & Hmsgs).
      exists (invocation_of tc arguments :: done).
      rewrite Hrun, <- app_assoc. repeat split.
      * constructor; [exact I | exact Hkind].
      * intros messages' Hret.
        destruct (Hmsgs messages' Hret) as (added & -> & Hadded & Hlen).
        (* what the answered call appended *)
        unfold handle_tool_call, Client.bind, lift, perform in Hcall.
        destruct (json_loads env (fn_arguments (tc_function tc)))
          as [decoded |]; [| discriminate Hcall].
        destruct (session_call_tool env h (fn_name (tc_function tc)) decoded)
          as [result |]; [| discriminate Hcall].
        destruct (result_content result) as [| [text | d m] more];
          try discriminate Hcall.
        cbn in Hcall. injection Hcall as <- _.
        exists (ToolMessage (tc_id tc) text :: added).
        rewrite <- app_assoc. repeat split.
        -- constructor; [exact I | exact Hadded].
        -- cbn. now rewrite Hlen.
    + rewrite Hcall. exists [invocation_of tc arguments]. cbn.
      repeat split; [repeat constructor | discriminate].
Qed.

(** X9.  When listing the tools fails, [process_query] raises that
    exception at once: no completion request is sent. *)
Theorem listing_failure_stops_the_query (query : string) (h : history) (e : exn) :
  session_list_tools env h = Raised e ->
  process_query env self query h = (Raised e, h ++ [ListTools]).
Proof.
  intros Hlist.
  unfold process_query, get_mcp_tools.
  unfold Client.bind at 1 2. unfold perform. now rewrite Hlist.
Qed.

(** X10.  When the first completion request fails, [process_query] raises
    that exception: the tool host is not invoked and no second request is
    sent. *)
Theorem completion_failure_stops_the_query
        (query : string) (h : history) (tools : list tool) (e : exn) :
  session_list_tools env h = Returned tools ->
  completions_create env (h ++ [ListTools]) (first_request self tools query)
  = Raised e ->
  process_query env self query h
  = (Raised e, h ++ [ListTools; ChatCompletion (first_request self tools query)]).
Proof.
  intros Htools Hfirst.
  unfold process_query, get_mcp_tools, create.
  unfold Client.bind at 1 2. unfold perform at 1. rewrite Htools.
  unfold ret at 1.
  unfold Client.bind at 1. unfold perform at 1.
  fold (first_request self tools query). rewrite Hfirst.
  now rewrite <- app_assoc.
Qed.

(** X11.  When the first reply has no choice at all, [process_query]
    raises [IndexError] from [choices[0]], having invoked no tool. *)
Theorem reply_without_choices_is_an_index_error
        (query : string) (h : history) (tools : list tool) (response : chat_completion) :
  session_list_tools env h = Returned tools ->
  completions_create env (h ++ [ListTools]) (first_request self tools query)
  = Returned response ->
  choices response = [] ->
  process_query env self query h
  = (Raised (IndexError "list index out of range"),
     h ++ [ListTools; ChatCompletion (first_request self tools query)]).
Proof.
  intros Htools Hfirst Hchoice.
  unfold process_query, get_mcp_tools, create.
  unfold Client.bind at 1 2. unfold perform at 1. rewrite Htools.
  unfold ret at 1.
  unfold Client.bind at 1. unfold perform at 1.
  fold (first_request self tools query). rewrite Hfirst.
  unfold Client.bind at 1. rewrite Hchoice. unfold first_item at 1, raise.
  now rewrite <- app_assoc.
Qed.

(** X12.  When the payload of a tool call does not decode, the calls before
    it have been made, that call and the ones after it are never sent to the
    host, no second completion request is sent, and the error is raised. *)
Theorem undecodable_payload_stops_the_query
        (query : string) (h : history) (tools : list tool)
        (response : chat_completion) (first_choice : choice) (others : list choice)
        (good : list tool_call) (answers : list (pyval * string))
        (bad : tool_call) (rest : list tool_call) (e : exn) :
  session_list_tools env h = Returned tools ->
  completions_create env (h ++ [ListTools]) (first_request self tools query)
  = Returned response ->
  choices response = first_choice :: others ->
  tool_calls (message first_choice) = Some (good ++ bad :: rest) ->
  answered env (h ++ [ListTools; ChatCompletion (first_request self tools query)])
           good answers ->
  json_loads env (fn_arguments (tc_function bad)) = Raised e ->
  process_query env self query h
  = (Raised e,
     h ++ [ListTools; ChatCompletion (first_request self tools query)]
       ++ invocations good answers).
Proof.
  intros Htools Hfirst Hchoice Hcalls Hans Hbad.
  apply (process_query_with_failed_call
           query h _ tools response first_choice others good answers
           bad rest e Htools Hfirst Hchoice Hcalls Hans).
  intros messages'.
  unfold handle_tool_call, Client.bind, lift. now rewrite Hbad.
Qed.

(** X13.  When the tool host raises on a call, [process_query] raises that
    exception: the calls after it are not attempted (nor that one again) and
    no second completion request is sent. *)
Theorem failing_tool_call_stops_the_query
        (query : string) (h : history) (tools : list tool)
        (response : chat_completion) (first_choice : choice) (others : list choice)
        (good : list tool_call) (answers : list (pyval * string))
        (bad : tool_call) (rest : list tool_call) (arguments : pyval) (e : exn) :
  session_list_tools env h = Returned tools ->
  completions_create env (h ++ [ListTools]) (first_request self tools query)
  = Returned response ->
  choices response = first_choice :: others ->
  tool_calls (message first_choice) = Some (good ++ bad :: rest) ->
  answered env (h ++ [ListTools; ChatCompletion (first_request self tools query)])
           good answers ->
  json_loads env (fn_arguments (tc_function bad)) = Returned arguments ->
  session_call_tool env
    (h ++ [ListTools; ChatCompletion (first_request self tools query)]
       ++ invocations good answers)
    (fn_name (tc_function bad)) arguments
  = Raised e ->
  process_query env self query h
  = (Raised e,
     h ++ [ListTools; ChatCompletion (first_request self tools query)]
       ++ invocations good answers ++ [invocation_of bad arguments]).
Proof.
  intros Htools Hfirst Hchoice Hcalls Hans Hargs Hbad.
  apply (process_query_with_failed_call
           query h _ tools response first_choice others good answers
           bad rest e Htools Hfirst Hchoice Hcalls Hans).
  intros messages'.
  unfold handle_tool_call, Client.bind, lift, perform.
  rewrite Hargs, Hbad. unfold invocation_of. now rewrite <- !app_assoc.
Qed.

(** X14.  When the result of a call has an empty content, or a first
    element that is not a text, [process_query] raises [IndexError], or
    [AttributeError], after that invocation: nothing is appended for it and no
    second completion request is sent. *)
Theorem result_without_text_stops_the_query
        (query : string) (h : history) (tools : list tool)
        (response : chat_completion) (first_choice : choice) (others : list choice)
        (good : list tool_call) (answers : list (pyval * string))
        (bad : tool_call) (rest : list tool_call) (arguments : pyval)
        (result : call_tool_result) (e : exn) :
  session_list_tools env h = Returned tools ->
  completions_create env (h ++ [ListTools]) (first_request self tools query)
  = Returned response ->
  choices response = first_choice :: others ->
  tool_calls (message first_choice) = Some (good ++ bad :: rest) ->
  answered env (h ++ [ListTools; ChatCompletion (first_request self tools query)])
           good answers ->
  json_loads env (fn_arguments (tc_function bad)) = Returned arguments ->
  session_call_tool env
    (h ++ [ListTools; ChatCompletion (first_request self tools query)]
       ++ invocations good answers)
    (fn_name (tc_function bad)) arguments
  = Returned result ->
  unusable (result_content result) = Some e ->
  process_query env self query h
  = (Raised e,
     h ++ [ListTools; ChatCompletion (first_request self tools query)]
       ++ invocations good answers ++ [invocation_of bad arguments]).
Proof.
  intros Htools Hfirst Hchoice Hcalls Hans Hargs Hcall Hbad.
  apply (process_query_with_failed_call
           query h _ tools response first_choice others good answers
           bad rest e Htools Hfirst Hchoice Hcalls Hans).
  intros messages'.
  unfold handle_tool_call, Client.bind, lift, perform.
  rewrite Hargs, Hcall. unfold invocation_of.
  destruct (result_content result) as [| [text | data mime] more];
    cbn in Hbad; try discriminate Hbad; injection Hbad as <-;
      cbn; now rewrite <- !app_assoc.
Qed.

Lemma invocations_hold_nothing_else (done : list event) :
  Forall is_invocation done ->
  completion_requests done = [] /\ ~ In ListTools done.
Proof.
  induction 1 as [| e done He _ [IHr IHl]]; [split; [reflexivity | intros []] |].
  destruct e; try contradiction. split; [exact IHr |].
  intros [H | H]; [discriminate H | exact (IHl H)].
Qed.

(** X15.  Whatever the world answers, [process_query] lists the tools
    exactly once, first of all, and sends at most two completion requests:
    the first holds the query alone with [tool_choice] "auto"; the second, if
    any, holds the query, the reply and then tool messages only, with
    [tool_choice] "none" and the same tools. *)
Theorem query_requests_are_bounded (query : string) (h : history) :
  exists rest,
    snd (process_query env self query h) = h ++ ListTools :: rest
    /\ ~ In ListTools rest
    /\ (completion_requests rest = []
        \/ (exists tools, completion_requests rest = [first_request self tools query])
        \/ (exists tools m added,
              completion_requests rest
              = [first_request self tools query;
                 final_request self tools
                   ([UserMessage query; AssistantMessage m] ++ added)]
              /\ Forall is_tool_message added)).
Proof.
  unfold process_query, get_mcp_tools, create.
  unfold Client.bind at 1 2. unfold perform at 1.
  destruct (session_list_tools env h) as [tools | e].
  2:{ exists []. cbn. repeat split; [intros [] | now left]. }
  unfold ret at 1.
  unfold Client.bind at 1. unfold perform at 1.
  fold (first_request self tools query).
  destruct (completions_create env (h ++ [ListTools]) (first_request self tools query))
    as [response | e].
  2:{ exists [ChatCompletion (first_request self tools query)].
      cbn. rewrite <- app_assoc. repeat split.
      - intros [H | []]; discriminate H.
      - right. left. now exists tools. }
  unfold Client.bind at 1.
  destruct (choices response) as [| first_choice others].
  { exists [ChatCompletion (first_request self tools query)].
    cbn. rewrite <- app_assoc. repeat split.
    - intros [H | []]; discriminate H.
    - right. left. now exists tools. }
  unfold first_item at 1, ret at 1.
  destruct (truthy (tool_calls (message first_choice))).
  2:{ exists [ChatCompletion (first_request self tools query)].
      cbn. rewrite <- app_assoc. repeat split.
      - intros [H | []]; discriminate H.
      - right. left. now exists tools. }
  unfold Client.bind at 1.
  destruct (for_each_only_invokes (items_of (tool_calls (message first_choice)))
              [UserMessage query; AssistantMessage (message first_choice)]
              ((h ++ [ListTools]) ++ [ChatCompletion (first_request self tools query)]))
    as (done & Hrun & Hkind & Hmsgs).
  destruct (invocations_hold_nothing_else done Hkind) as [Hnone Hnolist].
  destruct (for_each (items_of (tool_calls (message first_choice)))
              (handle_tool_call env)
              [UserMessage query; AssistantMessage (message first_choice)]
              ((h ++ [ListTools]) ++ [ChatCompletion (first_request self tools query)]))
    as [[messages' | e] h1].
  - cbn [snd fst] in Hrun, Hmsgs. subst h1.
    destruct (Hmsgs messages' eq_refl) as (added & -> & Hadded & _).
    fold (final_request self tools
            ([UserMessage query; AssistantMessage (message first_choice)] ++ added)).
    set (final := final_request self tools
                    ([UserMessage query; AssistantMessage (message first_choice)]
                       ++ added)).
    exists (ChatCompletion (first_request self tools query) :: done
            ++ [ChatCompletion final]).
    assert (Hhist : forall o : outcome (option string),
               snd (o, (((h ++ [ListTools])
                           ++ [ChatCompletion (first_request self tools query)])
                          ++ done) ++ [ChatCompletion final])
               = h ++ ListTools
                   :: ChatCompletion (first_request self tools query)
                   :: done ++ [ChatCompletion final]).
    { intros o. cbn [snd]. now rewrite <- !app_assoc. }
    split; [| split].
    + unfold Client.bind, perform.
      destruct (completions_create env _ final) as [final_response | e];
        [| apply Hhist].
      destruct (first_item (choices final_response) _) as [[c | e] h2] eqn:Hc.
      * destruct (choices final_response); cbn in Hc; [discriminate Hc |].
        injection Hc as _ <-. apply Hhist.
      * destruct (choices final_response); cbn in Hc; [| discriminate Hc].
        injection Hc as _ <-. apply Hhist.
    + intros [H | H]; [discriminate H |].
      apply in_app_or in H as [H | [H | []]]; [exact (Hnolist H) | discriminate H].
    + right. right. exists tools, (message first_choice), added.
      split; [| exact Hadded].
      cbn [completion_requests]. rewrite completion_requests_app, Hnone.
      reflexivity.
  - cbn [snd] in Hrun. subst h1.
    exists (ChatCompletion (first_request self tools query) :: done).
    cbn [snd]. rewrite <- !app_assoc. repeat split.
    + intros [H | H]; [discriminate H | exact (Hnolist H)].
    + right. left. exists tools. cbn [completion_requests]. now rewrite Hnone.
Qed.

(** Handling a tool call invokes the tool with the decoded payload of this
    call, or invokes nothing when the payload does not decode. *)
Lemma handle_tool_call_decoded
      (messages : list conversation_entry) (tc : tool_call) (h : history) :
  (exists e, handle_tool_call env messages tc h = (Raised e, h))
  \/ exists arguments outcome,
      json_loads env (fn_arguments (tc_function tc)) = Returned arguments
      /\ handle_tool_call env messages tc h
         = (outcome, h ++ [invocation_of tc arguments]).
Proof.
  unfold handle_tool_call, Client.bind, lift, perform, invocation_of.
  destruct (json_loads env (fn_arguments (tc_function tc))) as [arguments | e].
  - right. exists arguments.
    destruct (session_call_tool env h (fn_name (tc_function tc)) arguments)
      as [result | e]; [| eexists; split; reflexivity].
    destruct (result_content result) as [| [text | data mime] more];
      eexists; split; reflexivity.
  - left. now exists e.
Qed.

(** The loop over the tool calls makes one invocation per call it comes to,
    in the order of the calls, and it comes to all of them when it ends
    without raising. *)
Lemma invocations_match_the_calls (calls : list tool_call) :
  forall (messages : list conversation_entry) (h : history),
  exists done n,
    snd (for_each calls (handle_tool_call env) messages h) = h ++ done
    /\ Forall is_invocation done
    /\ Forall2 (carries_out env) (firstn n calls) (tool_invocations done)
    /\ forall messages',
        fst (for_each calls (handle_tool_call env) messages h) = Returned messages' ->
        firstn n calls = calls.
Proof.
  induction calls as [| tc rest IH]; intros messages h.
  - exists [], 0. cbn. rewrite app_nil_r.
    repeat split; constructor.
  - cbn [for_each]. unfold Client.bind at 1 2.
    destruct (handle_tool_call_decoded messages tc h)
      as [[e He] | (arguments & [next | e] & Hargs & Hcall)].
    + rewrite He. exists [], 0. cbn. rewrite app_nil_r.
      repeat split; [constructor | constructor | discriminate].
    + rewrite Hcall.
      destruct (IH next (h ++ [invocation_of tc arguments]))
        as (done & n & Hrun & Hkind & Hmatch & Hall).
      exists (invocation_of tc arguments :: done), (S n).
      rewrite Hrun, <- app_assoc. cbn [firstn tool_invocations invocation_of].
      repeat split.
      * constructor; [exact I | exact Hkind].
      * constructor; [split; [reflexivity | exact Hargs] | exact Hmatch].
      * intros messages' Hret. now rewrite (Hall messages' Hret).
    + rewrite Hcall. exists [invocation_of tc arguments], 1.
      cbn [firstn tool_invocations invocation_of fst snd].
      repeat split.
      * repeat constructor.
      * constructor; [split; [reflexivity | exact Hargs] | constructor].
      * discriminate.
Qed.

(** X16.  Whatever the endpoint and the tool host answer, the invocations
    [process_query] makes are, one for one and in the order of the reply,
    those of the first calls of the reply: the k-th invocation names the
    operation of the k-th call and passes what the payload of that call
    decodes to, so that nothing is invoked that the model did not ask for, no
    call is carried out twice and none is passed over; and when the query
    ends without raising, every call of the reply has been carried out. *)
Theorem only_requested_tools_are_invoked
        (query : string) (h : history) (tools : list tool)
        (response : chat_completion) (first_choice : choice) (others : list choice) :
  session_list_tools env h = Returned tools ->
  completions_create env (h ++ [ListTools]) (first_request self tools query)
  = Returned response ->
  choices response = first_choice :: others ->
  let calls := items_of (tool_calls (message first_choice)) in
  exists done n,
    snd (process_query env self query h) = h ++ done
    /\ Forall2 (carries_out env) (firstn n calls) (tool_invocations done)
    /\ forall answer,
        fst (process_query env self query h) = Returned answer ->
        Forall2 (carries_out env) calls (tool_invocations done).
Proof.
  intros Htools Hfirst Hchoice calls.
  destruct (process_query env self query h) as [o hq] eqn:Hpq.
  cbn [fst snd].
  unfold process_query, get_mcp_tools, create in Hpq.
  unfold Client.bind at 1 2 in Hpq. unfold perform at 1 in Hpq.
  rewrite Htools in Hpq. unfold ret at 1 in Hpq.
  unfold Client.bind at 1 in Hpq. unfold perform at 1 in Hpq.
  fold (first_request self tools query) in Hpq. rewrite Hfirst in Hpq.
  unfold Client.bind at 1 in Hpq. rewrite Hchoice in Hpq.
  unfold first_item at 1, ret at 1 in Hpq.
  fold calls in Hpq.
  destruct (truthy (tool_calls (message first_choice))) eqn:Htruthy.
  2:{ assert (Hnone : calls = []).
      { unfold calls.
        destruct (tool_calls (message first_choice)) as [[| tc rest] |];
          [reflexivity | discriminate Htruthy | reflexivity]. }
      cbn in Hpq. injection Hpq as _ <-.
      exists [ListTools; ChatCompletion (first_request self tools query)], 0.
      rewrite Hnone. cbn. rewrite <- app_assoc.
      repeat split; constructor. }
  unfold Client.bind at 1 in Hpq.
  destruct (invocations_match_the_calls calls
              [UserMessage query; AssistantMessage (message first_choice)]
              ((h ++ [ListTools]) ++ [ChatCompletion (first_request self tools query)]))
    as (done & n & Hrun & _ & Hmatch & Hall).
  destruct (for_each calls (handle_tool_call env)
              [UserMessage query; AssistantMessage (message first_choice)]
              ((h ++ [ListTools]) ++ [ChatCompletion (first_request self tools query)]))
    as [[messages' | e] h1]; cbn [snd fst] in Hrun, Hall; subst h1.
  - set (final := {| rq_model := model self; rq_messages := messages';
                     rq_tools := map manifest_of tools; rq_tool_choice := "none" |})
      in Hpq.
    exists ([ListTools; ChatCompletion (first_request self tools query)]
            ++ done ++ [ChatCompletion final]), n.
    assert (Hinv : tool_invocations
                     ([ListTools; ChatCompletion (first_request self tools query)]
                        ++ done ++ [ChatCompletion final])
                   = tool_invocations done).
    { rewrite !tool_invocations_app. cbn. now rewrite app_nil_r. }
    rewrite Hinv.
    split; [| split; [exact Hmatch |]].
    + unfold Client.bind, perform in Hpq.
      destruct (completions_create env _ final) as [final_response | e].
      * destruct (choices final_response); cbn in Hpq;
          injection Hpq as _ <-; now rewrite <- !app_assoc.
      * injection Hpq as _ <-. now rewrite <- !app_assoc.
    + intros _ _. rewrite <- (Hall messages' eq_refl). exact Hmatch.
  - injection Hpq as <- <-.
    exists ([ListTools; ChatCompletion (first_request self tools query)] ++ done), n.
    rewrite tool_invocations_app. cbn [tool_invocations app].
    split; [now rewrite <- !app_assoc | split; [exact Hmatch | discriminate]].
Qed.

End query.

End QueryExtras.

(** ** More about the chat loop *)

Module LoopExtras.
Import Py.
Import Client Dialogue Behaviour ClientProofs.
Local Open Scope list_scope.

Section loop.
Context (env : environment) (self : MCPOpenAIClient).

(** X17.  When a query is answered with a text, the turn prints
    "\nAnswer: " followed by that text and the loop goes on to the next
    turn. *)
Theorem answer_is_printed_and_loop_goes_on
        (h h' : history) (line text : string) (fuel : nat) :
  input env h prompt = Returned line ->
  lower (strip line) <> "quit"%string ->
  process_query env self (strip line) (h ++ [Input prompt])
  = (Returned (Some text), h') ->
  iteration env self h
  = (Returned Continue, h' ++ [Print (LF ++ "Answer: " ++ text)%string])
  /\ while_true env self (S fuel) h
     = while_true env self fuel (h' ++ [Print (LF ++ "Answer: " ++ text)%string]).
Proof.
  intros Hinput Hquery Hrun.
  assert (Hturn : iteration env self h
                  = (Returned Continue, h' ++ [Print (LF ++ "Answer: " ++ text)%string])).
  { unfold iteration, try_except.
    rewrite (attempt_query env self h line Hinput Hquery).
    now rewrite (bind_returned _ _ _ _ _ Hrun). }
  split; [exact Hturn | now apply while_true_continue].
Qed.

(** X18.  When the answer to a query has no content ([None]), building the
    line to print raises [TypeError]; the turn reports that error instead of
    an answer, and the loop goes on. *)
Theorem missing_content_is_reported
        (h h' : history) (line : string) (fuel : nat) :
  input env h prompt = Returned line ->
  lower (strip line) <> "quit"%string ->
  process_query env self (strip line) (h ++ [Input prompt]) = (Returned None, h') ->
  let report :=
    Print (LF ++ "❌ Error: can only concatenate str (not "
              ++ String quote ("NoneType" ++ String quote ") to str"))%string in
  iteration env self h = (Returned Continue, h' ++ [report])
  /\ while_true env self (S fuel) h = while_true env self fuel (h' ++ [report]).
Proof.
  intros Hinput Hquery Hrun report.
  assert (Hturn : iteration env self h = (Returned Continue, h' ++ [report])).
  { unfold iteration, try_except.
    rewrite (attempt_query env self h line Hinput Hquery).
    now rewrite (bind_returned _ _ _ _ _ Hrun). }
  split; [exact Hturn | now apply while_true_continue].
Qed.

(** X19.  An exception that does not derive from [Exception]
    ([KeyboardInterrupt], [CancelledError]) raised while a query is processed
    is not caught: the loop ends by raising it, and prints no report. *)
Theorem interrupt_ends_the_loop
        (h h' : history) (line : string) (e : exn) (fuel : nat) :
  input env h prompt = Returned line ->
  lower (strip line) <> "quit"%string ->
  process_query env self (strip line) (h ++ [Input prompt]) = (Raised e, h') ->
  isinstance_Exception e = false ->
  while_true env self (S fuel) h = (Raised e, h').
Proof.
  intros Hinput Hquery Hrun Hclass.
  cbn [while_true]. apply bind_raised.
  apply iteration_not_caught; [| exact Hclass].
  rewrite (attempt_query env self h line Hinput Hquery).
  now apply bind_raised.
Qed.

(** X20.  Once [input] raises [EOFError] every time, the loop never ends:
    whatever the number of turns it is still running, and each turn has only
    asked for input and printed the error. *)
Theorem closed_input_never_ends (msg : string) :
  (forall h, input env h prompt = Raised (EOFError msg)) ->
  forall fuel h,
    while_true env self fuel h
    = (Returned None,
       h ++ turns fuel [Input prompt; Print (LF ++ "❌ Error: " ++ msg)%string]).
Proof.
  intros Hclosed.
  induction fuel as [| fuel IH]; intros h.
  - cbn. now rewrite app_nil_r.
  - assert (Hturn : iteration env self h
                    = (Returned Continue,
                       h ++ [Input prompt; Print (LF ++ "❌ Error: " ++ msg)%string])).
    { unfold iteration, try_except, attempt.
      unfold Client.bind at 1. unfold perform at 1. rewrite Hclosed.
      cbn. now rewrite <- app_assoc. }
    rewrite (while_true_continue env self fuel _ _ Hturn), IH.
    cbn [turns]. now rewrite <- !app_assoc.
Qed.

Lemma strip_whitespace (line : string) :
  whitespace line = true -> strip line = EmptyString.
Proof.
  intros H. unfold strip. now rewrite (Text.lstrip_blank line H).
Qed.

(** X21.  A line of white space only (the empty line included) is not
    skipped: [process_query] is run on the empty query. *)
Theorem blank_line_is_sent_as_an_empty_query (h : history) (line : string) :
  input env h prompt = Returned line ->
  whitespace line = true ->
  exists more,
    snd (iteration env self h)
    = snd (process_query env self EmptyString (h ++ [Input prompt])) ++ more.
Proof.
  intros Hinput Hblank.
  pose proof (strip_whitespace line Hblank) as Hstrip.
  destruct (iteration_processes env self h line Hinput) as [more Hmore].
  - rewrite Hstrip. discriminate.
  - exists more. now rewrite <- Hstrip.
Qed.

Lemma iteration_break (h h' : history) :
  iteration env self h = (Returned Break, h') ->
  exists line,
    input env h prompt = Returned line
    /\ lower (strip line) = "quit"%string
    /\ h' = h ++ [Input prompt; Print (LF ++ "Goodbye!")%string].
Proof.
  unfold iteration, try_except, attempt.
  unfold Client.bind at 1. unfold perform at 1.
  destruct (input env h prompt) as [line | e].
  - cbv zeta.
    destruct (String.eqb (lower (strip line)) "quit") eqn:Hquit.
    + intros H. cbn in H. injection H as <-.
      exists line. apply String.eqb_eq in Hquit.
      repeat split; [exact Hquit | now rewrite <- app_assoc].
    + unfold Client.bind at 1.
      destruct (process_query env self (strip line) (h ++ [Input prompt]))
        as [[[text |] | e] h1]; cbn; try discriminate.
      unfold handler. destruct (isinstance_Exception e); cbn; discriminate.
  - unfold handler. destruct (isinstance_Exception e); cbn; discriminate.
Qed.

(** X22.  The loop returns only through the quit command: whenever it has
    returned, the last thing read was a line that is "quit" once trimmed and
    lowered, and the last thing printed is the farewell. *)
Theorem loop_is_left_only_by_quit (fuel : nat) :
  forall h h',
    while_true env self fuel h = (Returned (Some tt), h') ->
    exists before line,
      input env before prompt = Returned line
      /\ lower (strip line) = "quit"%string
      /\ h' = before ++ [Input prompt; Print (LF ++ "Goodbye!")%string].
Proof.
  induction fuel as [| fuel IH]; intros h h' Hrun.
  - discriminate Hrun.
  - cbn [while_true] in Hrun. unfold Client.bind in Hrun.
    destruct (iteration env self h) as [[[|] | e] h1] eqn:Hturn.
    + exact (IH h1 h' Hrun).
    + injection Hrun as <-.
      destruct (iteration_break h h1 Hturn) as (line & Hinput & Hquit & ->).
      now exists h, line.
    + discriminate Hrun.
Qed.

(** X23.  The query sent to the model is the line typed with the white
    space around it removed and its letter case kept, alone in the
    conversation: nothing of earlier turns is sent with it. *)
Theorem query_is_sent_trimmed
        (h : history) (line : string) (tools : list tool) :
  input env h prompt = Returned line ->
  lower (strip line) <> "quit"%string ->
  session_list_tools env (h ++ [Input prompt]) = Returned tools ->
  exists more,
    snd (iteration env self h)
    = h ++ [Input prompt; ListTools;
            ChatCompletion (first_request self tools (strip line))] ++ more.
Proof.
  intros Hinput Hquery Htools.
  destruct (iteration_processes env self h line Hinput Hquery) as [more Hmore].
  rewrite Hmore. clear Hmore.
  unfold process_query, get_mcp_tools, create.
  unfold Client.bind at 1 2. unfold perform at 1. rewrite Htools.
  unfold ret at 1.
  unfold Client.bind at 1. unfold perform at 1.
  fold (first_request self tools (strip line)).
  destruct (completions_create env ((h ++ [Input prompt]) ++ [ListTools])
              (first_request self tools (strip line))) as [response | e].
  - match goal with
    | |- exists more', snd (?k ?hh) ++ more = _ => assert (Hk : extends k)
    end.
    { unfold handle_tool_call, first_item, text_of. repeat extends_step. }
    destruct (Hk (((h ++ [Input prompt]) ++ [ListTools])
                    ++ [ChatCompletion (first_request self tools (strip line))]))
      as [done Hdone].
    exists (done ++ more). rewrite Hdone. now rewrite <- !app_assoc.
  - exists more. cbn [snd]. now rewrite <- !app_assoc.
Qed.

End loop.

End LoopExtras.

(** ** How the client starts and ends *)

Module LifecycleProofs.
Import Py.
Import Client Dialogue Lifecycle.
Local Open Scope list_scope.

Lemma chat_events_app (a b : list step) :
  chat_events (a ++ b) = chat_events a ++ chat_events b.
Proof.
  induction a as [| x a IH]; [reflexivity |].
  destruct x; cbn; now rewrite IH.
Qed.

Lemma chat_events_of_chat (done : history) : chat_events (map Chat done) = done.
Proof.
  induction done as [| e done IH]; cbn; [reflexivity | now rewrite IH].
Qed.

Lemma entered_app (a b : list step) : entered (a ++ b) = entered a ++ entered b.
Proof.
  induction a as [| x a IH]; [reflexivity |].
  destruct x; cbn; now rewrite IH.
Qed.

Lemma exited_app (a b : list step) : exited (a ++ b) = exited a ++ exited b.
Proof.
  induction a as [| x a IH]; [reflexivity |].
  destruct x; cbn; now rewrite IH.
Qed.

Lemma chat_steps_hold_no_resource (done : history) :
  entered (map Chat done) = [] /\ exited (map Chat done) = [].
Proof.
  induction done as [| e done [IH1 IH2]]; cbn; now split.
Qed.

Lemma skipn_past {A : Type} (a b : list A) : skipn (List.length a) (a ++ b) = b.
Proof.
  induction a as [| x a IH]; [reflexivity | exact IH].
Qed.

(** A computation of the connected client, seen from the life of the
    client: its events are added as steps and the exit stack is not touched. *)
Lemma lift_run {A : Type} (c : M A) (s : state) (o : outcome A) (done : history) :
  c (chat_events (steps s)) = (o, chat_events (steps s) ++ done) ->
  lift c s
  = (o, {| steps := steps s ++ map Chat done; exit_stack := exit_stack s |}).
Proof.
  intros H. unfold lift. now rewrite H, skipn_past.
Qed.

Lemma lift_extends {A : Type} (c : M A) (s : state) :
  extends c ->
  exists o done,
    lift c s = (o, {| steps := steps s ++ map Chat done; exit_stack := exit_stack s |}).
Proof.
  intros Hc. destruct (Hc (chat_events (steps s))) as [done Hdone].
  destruct (c (chat_events (steps s))) as [o h'] eqn:Hrun. cbn in Hdone. subst h'.
  exists o, done. now apply lift_run.
Qed.

(** Printing one line per tool. *)
Lemma tool_lines_printed (tools : list tool) :
  forall h,
    for_each tools (fun _ t => print (tool_line t)) tt h
    = (Returned tt, h ++ map (fun t => Print (tool_line t)) tools).
Proof.
  induction tools as [| t tools IH]; intros h; cbn [for_each map].
  - cbn. now rewrite app_nil_r.
  - unfold Client.bind, print at 1, perform at 1.
    rewrite IH. now rewrite <- app_assoc.
Qed.

(** *** What a computation does to the exit stack *)

Lemma balanced_bind {A B : Type} (c : Run A) (k : A -> Run B) :
  balanced c -> (forall a, balanced (k a)) -> balanced (Lifecycle.bind c k).
Proof.
  intros Hc Hk s. unfold Lifecycle.bind.
  destruct (Hc s) as (added & Hsteps & Hstack & Hexit).
  destruct (c s) as [[a | e] s1]; cbn [snd] in *.
  - destruct (Hk a s1) as (added' & Hsteps' & Hstack' & Hexit').
    exists (added ++ added').
    rewrite Hsteps', Hstack', Hsteps, Hstack, entered_app, exited_app, rev_app_distr.
    rewrite Hexit, Hexit'. now rewrite !app_assoc.
  - now exists added.
Qed.

Lemma balanced_enter (w : host) (r : resource) : balanced (enter_async_context w r).
Proof.
  intros s. unfold enter_async_context.
  destruct (aenter w (steps s) r); cbn [snd steps exit_stack].
  - now exists [Entered r].
  - now exists [EnterFailed r].
Qed.

Lemma balanced_initialize (w : host) : balanced (initialize w).
Proof.
  intros s. now exists [Initialize].
Qed.

Lemma balanced_lift {A : Type} (c : M A) : extends c -> balanced (lift c).
Proof.
  intros Hc s.
  destruct (lift_extends c s Hc) as (o & done & ->).
  destruct (chat_steps_hold_no_resource done) as [Hin Hout].
  exists (map Chat done). cbn [snd steps exit_stack]. now rewrite Hin, Hout.
Qed.

Lemma extends_tool_lines (tools : list tool) :
  extends (for_each tools (fun _ t => print (tool_line t)) tt).
Proof.
  intros h. rewrite tool_lines_printed. now eexists.
Qed.

Lemma balanced_connect (w : host) (path : string) : balanced (connect_to_server w path).
Proof.
  unfold connect_to_server.
  repeat first
         [ apply balanced_bind; [| intro]
         | apply balanced_enter
         | apply balanced_initialize
         | apply balanced_lift ];
    first [ apply ClientProofs.extends_perform
          | apply extends_tool_lines
          | unfold print; apply ClientProofs.extends_perform ].
Qed.

Lemma extends_chat_loop (env : environment) (self : MCPOpenAIClient) (fuel : nat) :
  extends (chat_loop env self fuel).
Proof.
  unfold chat_loop. apply ClientProofs.extends_bind.
  - unfold print. apply ClientProofs.extends_perform.
  - intros _. apply ClientProofs.extends_while_true.
Qed.

(** The unwinding leaves every context manager of the stack, top first. *)
Lemma unwind_steps (w : host) (stack : list resource) :
  forall pending done,
    snd (unwind w stack pending done) = done ++ map Exited stack.
Proof.
  induction stack as [| r stack IH]; intros pending done; cbn [unwind map].
  - now rewrite app_nil_r.
  - destruct (aexit w done r); rewrite IH; now rewrite <- app_assoc.
Qed.

End LifecycleProofs.

(** ** More about [connect_to_server], [cleanup] and [main] *)

Module LifecycleExtras.
Import Py.
Import Client Dialogue Lifecycle.
Local Open Scope list_scope.

(** X24.  When the server starts, the session opens, the handshake and the
    listing succeed, [connect_to_server] has done exactly this, in order:
    entered the transport of [python <script>], entered the session,
    initialized it, listed the tools, and printed the announcement and one
    line "- name: description" per tool (with "None" for a missing
    description); both context managers are on the exit stack, the session on
    top. *)
Theorem connection_announces_the_tools
        (w : host) (path : string) (s : state) (tools : list tool) :
  let transport := StdioTransport "python" [path] in
  aenter w (steps s) transport = Returned tt ->
  aenter w (steps s ++ [Entered transport]) Session = Returned tt ->
  session_initialize w (steps s ++ [Entered transport; Entered Session]) = Returned tt ->
  session_list_tools (chat w) (chat_events (steps s)) = Returned tools ->
  connect_to_server w path s
  = (Returned tt,
     {| steps :=
          steps s
          ++ [Entered transport; Entered Session; Initialize; Chat ListTools;
              Chat (Print "Connected to server with tools:")]
          ++ map (fun t => Chat (Print (tool_line t))) tools;
        exit_stack := Session :: transport :: exit_stack s |}).
Proof.
  intros transport Htransport Hsession Hinit Htools.
  unfold connect_to_server. fold transport.
  unfold Lifecycle.bind at 1. unfold enter_async_context at 1. rewrite Htransport.
  unfold Lifecycle.bind at 1. unfold enter_async_context at 1.
  cbn [steps exit_stack]. rewrite Hsession.
  unfold Lifecycle.bind at 1. unfold initialize at 1.
  cbn [steps exit_stack]. rewrite <- app_assoc. cbn [app]. rewrite Hinit.
  unfold Lifecycle.bind at 1.
  erewrite LifecycleProofs.lift_run with (done := [ListTools]).
  2:{ unfold perform. cbn [steps].
      rewrite <- app_assoc, LifecycleProofs.chat_events_app. cbn [app chat_events].
      rewrite app_nil_r, Htools. reflexivity. }
  unfold Lifecycle.bind at 1.
  erewrite LifecycleProofs.lift_run
    with (done := [Print "Connected to server with tools:"]) by reflexivity.
  erewrite LifecycleProofs.lift_run
    by apply LifecycleProofs.tool_lines_printed.
  cbn [steps exit_stack map]. rewrite map_map.
  now rewrite <- !app_assoc.
Qed.

(** X25.  However [main] ends (the connection fails, the loop is left by
    quit, or an exception goes through), [cleanup] has run: every context
    manager that was entered is left, the last entered first, nothing is left
    before that, and the exit stack is empty. *)
Theorem main_leaves_what_it_entered (w : host) (fuel : nat) (before : list step) :
  fst (main w fuel before) <> Returned None ->
  exists body,
    steps (snd (main w fuel before))
    = before ++ body ++ map Exited (rev (entered body))
    /\ exited body = []
    /\ exit_stack (snd (main w fuel before)) = [].
Proof.
  unfold main, try_finally.
  set (start := {| steps := before; exit_stack := [] |}).
  assert (Hbody : balanced
                    (Lifecycle.bind (connect_to_server w "server.py")
                       (fun _ => lift (chat_loop (chat w) default_client fuel)))).
  { apply LifecycleProofs.balanced_bind.
    - apply LifecycleProofs.balanced_connect.
    - intros _. apply LifecycleProofs.balanced_lift,
                  LifecycleProofs.extends_chat_loop. }
  destruct (Hbody start) as (body & Hsteps & Hstack & Hexit).
  destruct (Lifecycle.bind (connect_to_server w "server.py")
              (fun _ => lift (chat_loop (chat w) default_client fuel)) start)
    as [o s1].
  cbn [snd steps exit_stack] in Hsteps, Hstack. rewrite app_nil_r in Hstack.
  assert (Hclean : steps (snd (cleanup w s1))
                   = before ++ body ++ map Exited (rev (entered body))
                   /\ exit_stack (snd (cleanup w s1)) = []).
  { unfold cleanup.
    pose proof (LifecycleProofs.unwind_steps w (exit_stack s1) None (steps s1)) as Hun.
    destruct (unwind w (exit_stack s1) None (steps s1)) as [pending done].
    cbn [snd] in Hun. cbn [snd steps exit_stack].
    now rewrite Hun, Hsteps, Hstack, <- app_assoc. }
  destruct Hclean as [Hclean1 Hclean2].
  intros Hfinished. exists body.
  destruct o as [[[] |] | e].
  - destruct (cleanup w s1) as [[u | e'] s2]; cbn [snd] in *; auto.
  - now destruct Hfinished.
  - destruct (cleanup w s1) as [[u | e'] s2]; cbn [snd] in *; auto.
Qed.

(** X26.  When the server cannot be started, [main] raises that exception
    having done nothing else: no session, no listing, no chat loop, and
    nothing to clean up. *)
Theorem unreachable_server_ends_main
        (w : host) (fuel : nat) (before : list step) (e : exn) :
  let transport := StdioTransport "python" ["server.py"%string] in
  aenter w before transport = Raised e ->
  main w fuel before
  = (Raised e, {| steps := before ++ [EnterFailed transport]; exit_stack := [] |}).
Proof.
  intros transport Hfail.
  unfold main, try_finally, connect_to_server. fold transport.
  unfold Lifecycle.bind at 1 2. unfold enter_async_context at 1.
  cbn [steps exit_stack]. now rewrite Hfail.
Qed.

(** X27.  When the handshake fails, [main] raises that exception without
    listing tools or starting the chat loop, after leaving the session and
    then the transport. *)
Theorem failed_handshake_ends_main
        (w : host) (fuel : nat) (before : list step) (e : exn) :
  let transport := StdioTransport "python" ["server.py"%string] in
  aenter w before transport = Returned tt ->
  aenter w (before ++ [Entered transport]) Session = Returned tt ->
  session_initialize w (before ++ [Entered transport; Entered Session]) = Raised e ->
  aexit w (before ++ [Entered transport; Entered Session; Initialize]) Session
  = Returned tt ->
  aexit w (before ++ [Entered transport; Entered Session; Initialize; Exited Session])
        transport
  = Returned tt ->
  main w fuel before
  = (Raised e,
     {| steps := before ++ [Entered transport; Entered Session; Initialize;
                            Exited Session; Exited transport];
        exit_stack := [] |}).
Proof.
  intros transport Htransport Hsession Hinit Hexit1 Hexit2.
  unfold main, try_finally, connect_to_server. fold transport.
  unfold Lifecycle.bind at 1 2. unfold enter_async_context at 1.
  cbn [steps exit_stack]. rewrite Htransport.
  unfold Lifecycle.bind at 1. unfold enter_async_context at 1.
  cbn [steps exit_stack]. rewrite Hsession.
  unfold Lifecycle.bind at 1. unfold initialize at 1.
  cbn [steps exit_stack]. rewrite <- app_assoc. cbn [app]. rewrite Hinit.
  unfold cleanup. cbn [steps exit_stack unwind].
  rewrite <- app_assoc. cbn [app]. rewrite Hexit1.
  rewrite <- app_assoc. cbn [app]. rewrite Hexit2.
  now rewrite <- app_assoc.
Qed.

End LifecycleExtras.

(** ** Those behaviours at the sample cases *)

Module ExtraCases.
Import Py.
Import Server Spec Behaviour.

(** *** The tool host *)

Lemma deep_store_is_reported :
  let content := json_dumps Samples.two_records 2 in
  get_knowledge_base Cases.deep_decoder (Samples.disk_with content) Samples.server_py
  = Returned "Error: maximum recursion depth exceeded".
Proof.
  intros content.
  apply (ServerExtras.other_failures_are_reported
           Cases.deep_decoder (Samples.disk_with content) Samples.server_py content
           (OtherException "RecursionError" "maximum recursion depth exceeded"));
    [reflexivity | reflexivity | reflexivity | discriminate | discriminate].
Defined.

Lemma directory_at_the_store_path :
  get_knowledge_base (Samples.decoder []) Cases.disk_with_directory Samples.server_py
  = Returned ("Error: [Errno 21] Is a directory: "
              ++ "'/srv/apps/data/knowledge_base.json'").
Proof.
  apply (ServerExtras.directory_is_reported
           (Samples.decoder []) Cases.disk_with_directory Samples.server_py).
  reflexivity.
Defined.

Lemma sample_decoder_raises_decode_errors (known : list pyval) :
  forall text e,
    Samples.decoder known text = Raised e -> isinstance_Exception e = true.
Proof.
  induction known as [| v known IH]; intros text e; simpl.
  - intros H. injection H as <-. reflexivity.
  - destruct (String.eqb text (json_dumps v 2)); [discriminate | apply IH].
Defined.

Lemma error_prefix_at_truncated_store :
  exists text,
    get_knowledge_base (Samples.decoder [Samples.two_records])
                       (Samples.disk_with "[{") Samples.server_py
    = Returned text
    /\ (String.prefix "Error: " text = true
        <-> read_failed (Samples.decoder [Samples.two_records])
                        (Samples.disk_with "[{") Samples.server_py).
Proof.
  apply (ServerExtras.error_prefix_tells_failure
           (Samples.decoder [Samples.two_records]) (Samples.disk_with "[{")
           Samples.server_py).
  apply sample_decoder_raises_decode_errors.
Defined.

Lemma heading_alone_at_empty_store :
  let content := json_dumps (PyList []) 2 in
  get_knowledge_base (Samples.decoder [PyList []]) (Samples.disk_with content)
                     Samples.server_py
  = Returned heading.
Proof.
  intros content.
  apply (ServerExtras.empty_store_gives_the_heading_alone
           (Samples.decoder [PyList []]) (Samples.disk_with content)
           Samples.server_py content); reflexivity.
Defined.

Lemma answer_extended_by_second_record :
  let short := PyList [Cases.first_record] in
  let long := PyList [Cases.first_record; Cases.second_record] in
  let loads := Samples.decoder [short; long] in
  exists text,
    get_knowledge_base loads (Samples.disk_with (json_dumps short 2)) Samples.server_py
    = Returned text
    /\ get_knowledge_base loads (Samples.disk_with (json_dumps long 2)) Samples.server_py
       = Returned (text ++ concat_all
                             (map lines_of (enumerate [Cases.second_record] (1 + 1)))).
Proof.
  intros short long loads.
  apply (ServerExtras.longer_store_extends_the_answer
           loads loads (Samples.disk_with (json_dumps short 2))
           (Samples.disk_with (json_dumps long 2))
           Samples.server_py Samples.server_py
           (json_dumps short 2) (json_dumps long 2)
           [Cases.first_record] [Cases.second_record]); reflexivity.
Defined.

Lemma tagged_record_gives_the_same_answer :
  let plain := PyList [Cases.first_record; PyInt 7] in
  let tagged := PyList [Cases.first_record_tagged; PyStr "seven"] in
  let loads := Samples.decoder [plain; tagged] in
  get_knowledge_base loads (Samples.disk_with (json_dumps plain 2)) Samples.server_py
  = get_knowledge_base loads (Samples.disk_with (json_dumps tagged 2)) Samples.server_py.
Proof.
  intros plain tagged loads.
  apply (ServerExtras.answer_depends_on_what_is_shown
           loads loads (Samples.disk_with (json_dumps plain 2))
           (Samples.disk_with (json_dumps tagged 2))
           Samples.server_py Samples.server_py
           (json_dumps plain 2) (json_dumps tagged 2)
           [Cases.first_record; PyInt 7] [Cases.first_record_tagged; PyStr "seven"]);
    reflexivity.
Defined.

Lemma store_beside_the_sample_script :
  kb_file ("/srv/apps" ++ "/" ++ "server.py") = "/srv/apps" ++ "/data/knowledge_base.json".
Proof.
  apply (StorePath.store_is_beside_the_script "/srv/apps" "server.py");
    [discriminate | reflexivity | reflexivity].
Defined.

End ExtraCases.

Module QueryCases.
Import Py.
Import Client Dialogue Behaviour.
Local Open Scope list_scope.

Lemma query_with_host_down :
  process_query (Scenario.offline Cases.reply Cases.reply []) default_client "What is MCP?" []
  = (Raised (OtherException "McpError" "Connection closed"), [] ++ [ListTools]).
Proof.
  apply (QueryExtras.listing_failure_stops_the_query
           (Scenario.offline Cases.reply Cases.reply []) default_client "What is MCP?" []).
  reflexivity.
Defined.

Lemma query_with_endpoint_down :
  process_query (Cases.world_of Cases.lists_kb_tool Cases.endpoint_down
                                Scenario.host_call [])
                default_client "What is MCP?" []
  = (Raised (OtherException "APIConnectionError" "Connection error."),
     [] ++ [ListTools; Cases.ask "What is MCP?"]).
Proof.
  apply (QueryExtras.completion_failure_stops_the_query
           (Cases.world_of Cases.lists_kb_tool Cases.endpoint_down Scenario.host_call [])
           default_client "What is MCP?" [] Cases.tools); reflexivity.
Defined.

Lemma query_with_no_choice :
  process_query (Cases.world_of Cases.lists_kb_tool Cases.no_choices
                                Scenario.host_call [])
                default_client "What is MCP?" []
  = (Raised (IndexError "list index out of range"),
     [] ++ [ListTools; Cases.ask "What is MCP?"]).
Proof.
  apply (QueryExtras.reply_without_choices_is_an_index_error
           (Cases.world_of Cases.lists_kb_tool Cases.no_choices Scenario.host_call [])
           default_client "What is MCP?" [] Cases.tools {| choices := [] |}); reflexivity.
Defined.

Lemma kb_call_answered (env : environment) (h : history) :
  json_loads env "{}" = Returned (PyDict []) ->
  session_call_tool env h "get_knowledge_base" (PyDict []) = Returned Scenario.kb_result ->
  answered env h [Scenario.kb_call] [(PyDict [], Scenario.kb_text)].
Proof.
  intros Hargs Hcall.
  apply (answered_next env h Scenario.kb_call [] (PyDict []) Scenario.kb_result
           Scenario.kb_text [] [] Hargs Hcall eq_refl).
  apply answered_none.
Defined.

Lemma query_with_garbled_payload :
  let first := Cases.asks [Scenario.kb_call; Cases.garbled_call; Scenario.topic_call] in
  process_query (Scenario.world first Cases.reply []) default_client "What is MCP?" []
  = (Raised (JSONDecodeError "Expecting value: line 1 column 1 (char 0)"),
     [] ++ [ListTools; Cases.ask "What is MCP?"]
        ++ invocations [Scenario.kb_call] [(PyDict [], Scenario.kb_text)]).
Proof.
  intros first.
  apply (QueryExtras.undecodable_payload_stops_the_query
           (Scenario.world first Cases.reply []) default_client "What is MCP?" [] Cases.tools
           (Scenario.reply_of first) {| message := first |} []
           [Scenario.kb_call] [(PyDict [], Scenario.kb_text)]
           Cases.garbled_call [Scenario.topic_call]);
    try reflexivity.
  apply kb_call_answered; reflexivity.
Defined.

Lemma query_with_unknown_tool :
  let first := Cases.asks [Scenario.kb_call; Cases.unknown_call; Scenario.topic_call] in
  process_query (Scenario.world first Cases.reply []) default_client "What is MCP?" []
  = (Raised (OtherException "McpError" "Unknown tool: search"),
     [] ++ [ListTools; Cases.ask "What is MCP?"]
        ++ invocations [Scenario.kb_call] [(PyDict [], Scenario.kb_text)]
        ++ [invocation_of Cases.unknown_call (PyDict [])]).
Proof.
  intros first.
  apply (QueryExtras.failing_tool_call_stops_the_query
           (Scenario.world first Cases.reply []) default_client "What is MCP?" [] Cases.tools
           (Scenario.reply_of first) {| message := first |} []
           [Scenario.kb_call] [(PyDict [], Scenario.kb_text)]
           Cases.unknown_call [Scenario.topic_call] (PyDict []));
    try reflexivity.
  apply kb_call_answered; reflexivity.
Defined.

Lemma query_with_empty_result :
  let env := Cases.world_of Cases.lists_kb_tool
                            (Scenario.scripted_model Scenario.asks_for_kb Cases.reply)
                            Cases.empty_host [] in
  process_query env default_client "What is MCP?" []
  = (Raised (IndexError "list index out of range"),
     [] ++ [ListTools; Cases.ask "What is MCP?"]
        ++ invocations [] [] ++ [invocation_of Scenario.kb_call (PyDict [])]).
Proof.
  intros env.
  apply (QueryExtras.result_without_text_stops_the_query
           env default_client "What is MCP?" [] Cases.tools
           (Scenario.reply_of Scenario.asks_for_kb)
           {| message := Scenario.asks_for_kb |} []
           [] [] Scenario.kb_call [] (PyDict [])
           {| result_content := []; isError := false |});
    try reflexivity.
  apply answered_none.
Defined.

Lemma invocations_of_three_calls :
  let calls := [Scenario.kb_call; Cases.unknown_call; Scenario.topic_call] in
  let env :=
    Cases.world_of Cases.lists_kb_tool
                   (Scenario.scripted_model (Cases.asks calls) Cases.reply)
                   Cases.willing_host [] in
  exists done n,
    snd (process_query env default_client "What is MCP?" []) = [] ++ done
    /\ Forall2 (carries_out env) (firstn n calls) (tool_invocations done)
    /\ forall answer,
        fst (process_query env default_client "What is MCP?" []) = Returned answer ->
        Forall2 (carries_out env) calls (tool_invocations done).
Proof.
  intros calls env.
  apply (QueryExtras.only_requested_tools_are_invoked
           env default_client "What is MCP?" [] Cases.tools
           (Scenario.reply_of (Cases.asks calls))
           {| message := Cases.asks calls |} []); reflexivity.
Defined.

(** The run of that query: three invocations, one per call, each with the
    name and the decoded payload of its call, and then the final answer. *)
Example run_of_three_calls :
  let calls := [Scenario.kb_call; Cases.unknown_call; Scenario.topic_call] in
  let env :=
    Cases.world_of Cases.lists_kb_tool
                   (Scenario.scripted_model (Cases.asks calls) Cases.reply)
                   Cases.willing_host [] in
  fst (process_query env default_client "What is MCP?" [])
  = Returned (Some "unused"%string)
  /\ tool_invocations (snd (process_query env default_client "What is MCP?" []))
     = [("get_knowledge_base"%string, PyDict []);
        ("search"%string, PyDict []);
        ("get_knowledge_base"%string, PyDict [("topic"%string, PyStr "mcp")])].
Proof. split; reflexivity. Qed.

End QueryCases.

Module LoopCases.
Import Py.
Import Client Dialogue Behaviour.
Local Open Scope list_scope.

Lemma answered_turn :
  let hello := Scenario.plain_reply "Hello!" in
  let env := Scenario.world hello hello ["  Say hello "%string] in
  let after := [Input prompt; ListTools; Cases.ask "Say hello"] in
  iteration env default_client []
  = (Returned Continue, after ++ [Print (LF ++ "Answer: " ++ "Hello!")%string])
  /\ while_true env default_client 1 []
     = while_true env default_client 0
         (after ++ [Print (LF ++ "Answer: " ++ "Hello!")%string]).
Proof.
  intros hello env after.
  apply (LoopExtras.answer_is_printed_and_loop_goes_on
           env default_client [] after "  Say hello " "Hello!" 0);
    [reflexivity | discriminate | reflexivity].
Defined.

Lemma turn_without_content :
  let env := Scenario.world Cases.empty_reply Cases.empty_reply ["Say nothing"%string] in
  let after := [Input prompt; ListTools; Cases.ask "Say nothing"] in
  let report :=
    Print (LF ++ "❌ Error: can only concatenate str (not "
              ++ String quote ("NoneType" ++ String quote ") to str"))%string in
  iteration env default_client [] = (Returned Continue, after ++ [report])
  /\ while_true env default_client 1 []
     = while_true env default_client 0 (after ++ [report]).
Proof.
  intros env after report.
  apply (LoopExtras.missing_content_is_reported
           env default_client [] after "Say nothing" 0);
    [reflexivity | discriminate | reflexivity].
Defined.

Lemma interrupted_turn :
  let env := Cases.world_of Cases.interrupted (Scenario.scripted_model Cases.reply Cases.reply)
                            Scenario.host_call ["What is MCP?"%string] in
  while_true env default_client 1 []
  = (Raised KeyboardInterrupt, [Input prompt; ListTools]).
Proof.
  intros env.
  apply (LoopExtras.interrupt_ends_the_loop
           env default_client [] [Input prompt; ListTools] "What is MCP?"
           KeyboardInterrupt 0);
    [reflexivity | discriminate | reflexivity | reflexivity].
Defined.

Lemma closed_terminal_spins :
  let env := Scenario.world Cases.reply Cases.reply [] in
  while_true env default_client 3 []
  = (Returned None,
     [] ++ turns 3 [Input prompt;
                    Print (LF ++ "❌ Error: " ++ "EOF when reading a line")%string]).
Proof.
  intros env.
  apply (LoopExtras.closed_input_never_ends env default_client "EOF when reading a line").
  intros h. unfold env, Scenario.world, Scenario.typed. cbn [input].
  now destruct (Scenario.inputs_so_far h).
Defined.

Lemma blank_line_turn :
  let line := (" " ++ Cases.nbsp ++ Cases.ideographic_space)%string in
  let env := Scenario.world Cases.reply Cases.reply [line] in
  whitespace line = true
  /\ exists more,
      snd (iteration env default_client [])
      = snd (process_query env default_client EmptyString ([] ++ [Input prompt]))
        ++ more.
Proof.
  intros line env.
  split; [reflexivity |].
  apply (LoopExtras.blank_line_is_sent_as_an_empty_query env default_client [] line);
    reflexivity.
Defined.

Lemma loop_left_by_quit :
  let env :=
    Scenario.world Cases.reply Cases.reply
                   ["Hi"; Cases.nbsp ++ "QUIT" ++ Cases.em_space]%string in
  exists before line,
    input env before prompt = Returned line
    /\ lower (strip line) = "quit"%string
    /\ snd (while_true env default_client 2 [])
       = before ++ [Input prompt; Print (LF ++ "Goodbye!")%string].
Proof.
  intros env.
  apply (LoopExtras.loop_is_left_only_by_quit env default_client 2 []).
  reflexivity.
Defined.

Lemma trimmed_query_is_sent :
  let line := (Cases.ideographic_space ++ " What is MCP? " ++ Cases.nbsp)%string in
  let env := Scenario.world Cases.reply Cases.reply [line] in
  exists more,
    snd (iteration env default_client [])
    = [] ++ [Input prompt; ListTools; Cases.ask "What is MCP?"] ++ more.
Proof.
  intros line env.
  apply (LoopExtras.query_is_sent_trimmed env default_client [] line Cases.tools);
    [reflexivity | discriminate | reflexivity].
Defined.

End LoopCases.

Module LifecycleCases.
Import Py.
Import Client Dialogue Lifecycle.
Local Open Scope list_scope.

Lemma sample_connection :
  let w := Cases.sound_host (Scenario.world Cases.reply Cases.reply []) in
  let transport := StdioTransport "python" ["server.py"%string] in
  connect_to_server w "server.py" {| steps := []; exit_stack := [] |}
  = (Returned tt,
     {| steps :=
          [] ++ [Entered transport; Entered Session; Initialize; Chat ListTools;
                 Chat (Print "Connected to server with tools:")]
             ++ map (fun t => Chat (Print (tool_line t))) [Scenario.kb_tool];
        exit_stack := [Session; transport] |}).
Proof.
  intros w transport.
  apply (LifecycleExtras.connection_announces_the_tools
           w "server.py" {| steps := []; exit_stack := [] |} [Scenario.kb_tool]);
    reflexivity.
Defined.

Lemma sample_session_is_cleaned_up :
  let w := Cases.sound_host (Scenario.world Cases.reply Cases.reply ["quit"%string]) in
  exists body,
    steps (snd (main w 1 [])) = [] ++ body ++ map Exited (rev (entered body))
    /\ exited body = []
    /\ exit_stack (snd (main w 1 [])) = [].
Proof.
  intros w.
  apply (LifecycleExtras.main_leaves_what_it_entered w 1 []).
  discriminate.
Defined.

Lemma main_without_server :
  let w := Cases.no_server (Scenario.world Cases.reply Cases.reply ["quit"%string]) in
  let transport := StdioTransport "python" ["server.py"%string] in
  main w 1 []
  = (Raised (FileNotFoundError "[Errno 2] No such file or directory: 'python'"),
     {| steps := [] ++ [EnterFailed transport]; exit_stack := [] |}).
Proof.
  intros w transport.
  apply (LifecycleExtras.unreachable_server_ends_main w 1 []).
  reflexivity.
Defined.

Lemma main_without_handshake :
  let w := Cases.no_handshake (Scenario.world Cases.reply Cases.reply ["quit"%string]) in
  let transport := StdioTransport "python" ["server.py"%string] in
  main w 1 []
  = (Raised (OtherException "McpError" "Connection closed"),
     {| steps := [] ++ [Entered transport; Entered Session; Initialize;
                        Exited Session; Exited transport];
        exit_stack := [] |}).
Proof.
  intros w transport.
  apply (LifecycleExtras.failed_handshake_ends_main w 1 []); reflexivity.
Defined.

Example sample_session :
  let w := Cases.sound_host (Scenario.world Cases.reply Cases.reply ["quit"%string]) in
  let transport := StdioTransport "python" ["server.py"%string] in
  main w 1 []
  = (Returned (Some tt),
     {| steps :=
          [Entered transport; Entered Session; Initialize; Chat ListTools;
           Chat (Print "Connected to server with tools:");
           Chat (Print "- get_knowledge_base: Retrieve the entire knowledge base as formatted string.");
           Chat (Print (LF ++ "MCP Ollama Client Started! Type your queries or 'quit' to exit.")%string);
           Chat (Input prompt); Chat (Print (LF ++ "Goodbye!")%string);
           Exited Session; Exited transport];
        exit_stack := [] |}).
Proof. reflexivity. Qed.

End LifecycleCases.
